(** * The data-analyst agent of [app.py]: a shallow embedding

    The Flask handler [analyze_data] materialises the uploaded files in a
    temporary directory, asks a language model for an analysis script,
    runs the script with [uv run] and shapes the HTTP response.  Everything
    the handler obtains from outside (the file system, the language-model
    service, the child process, the JSON parser) is read from a [World]
    record, so each Python function becomes a function of its arguments and
    the world, and every [try]/[except] of the source is written out. *)

From Stdlib Require Import String Ascii List ZArith Bool Lia.
From Stdlib.Strings Require Import Byte.
From Stdlib Require Import DecimalString.
Import ListNotations.
Open Scope string_scope.

(** ** Python [str] operations used by the source

    A Python string is modelled as a Rocq [string]: a sequence of code
    points below 256. *)

Module PyStr.

(** [s.startswith(p)] *)
Fixpoint startswith (s p : string) : bool :=
  match p, s with
  | EmptyString, _ => true
  | String _ _, EmptyString => false
  | String a p', String b s' => Ascii.eqb a b && startswith s' p'
  end.

Fixpoint rev_acc (s acc : string) : string :=
  match s with
  | EmptyString => acc
  | String c s' => rev_acc s' (String c acc)
  end.

Definition rev (s : string) : string := rev_acc s EmptyString.

(** [s.endswith(p)] *)
Definition endswith (s p : string) : bool := startswith (rev s) (rev p).

(** [s.endswith((p1, p2, ...))] with a tuple of suffixes *)
Definition endswith_any (s : string) (ps : list string) : bool :=
  existsb (endswith s) ps.

(** [c.isspace()] on the code points below 256 *)
Definition isspace (c : ascii) : bool :=
  let n := nat_of_ascii c in
  (((9 <=? n) && (n <=? 13)) || ((28 <=? n) && (n <=? 32))
   || (n =? 133) || (n =? 160))%nat.

(** [s.lstrip()] *)
Fixpoint lstrip (s : string) : string :=
  match s with
  | EmptyString => EmptyString
  | String c s' => if isspace c then lstrip s' else s
  end.

(** [s.strip()] *)
Definition strip (s : string) : string := rev (lstrip (rev (lstrip s))).

(** truthiness of a string: [bool(s)] *)
Definition truthy (s : string) : bool :=
  match s with EmptyString => false | _ => true end.

(** [s.replace(old, new)] for a non-empty [old]: the occurrences are
    found from the left and do not overlap.  [skip] counts the characters
    of the current occurrence still to be dropped. *)
Fixpoint replace_from (skip : nat) (old new s : string) : string :=
  match s with
  | EmptyString => EmptyString
  | String c s' =>
      match skip with
      | S k => replace_from k old new s'
      | O =>
          if startswith s old
          then new ++ replace_from (String.length old - 1)%nat old new s'
          else String c (replace_from 0 old new s')
      end
  end.

Definition replace (s old new : string) : string := replace_from 0 old new s.

(** [s[:n]] *)
Definition prefix (n : nat) (s : string) : string := substring 0 n s.

(** [str(n)] for a natural number *)
Definition of_nat (n : nat) : string := NilEmpty.string_of_uint (Nat.to_uint n).

End PyStr.

(** ** [base64.b64encode] *)

Module Base64.

Definition alphabet : string :=
  "ABCDEFGHIJKLMNOPQRSTUVWXYZabcdefghijklmnopqrstuvwxyz0123456789+/".

(** the character of a 6-bit value *)
Definition digit (n : N) : ascii :=
  match String.get (N.to_nat (N.land n 63%N)) alphabet with
  | Some c => c
  | None => "="%char
  end.

Definition val (b : byte) : N := Byte.to_N b.

(** Three bytes give four characters; a last group of one or two bytes is
    padded with [=]. *)
Fixpoint b64encode (bs : list byte) : string :=
  match bs with
  | [] => EmptyString
  | [a] =>
      let n := N.shiftl (val a) 16%N in
      String (digit (N.shiftr n 18%N)) (String (digit (N.shiftr n 12%N)) "==")
  | [a; b] =>
      let n := N.lor (N.shiftl (val a) 16%N) (N.shiftl (val b) 8%N) in
      String (digit (N.shiftr n 18%N)) (String (digit (N.shiftr n 12%N))
        (String (digit (N.shiftr n 6%N)) "="))
  | a :: b :: c :: rest =>
      let n := N.lor (N.lor (N.shiftl (val a) 16%N) (N.shiftl (val b) 8%N)) (val c) in
      String (digit (N.shiftr n 18%N)) (String (digit (N.shiftr n 12%N))
        (String (digit (N.shiftr n 6%N)) (String (digit n) (b64encode rest))))
  end.

End Base64.


(** ** Values exchanged with the outside *)

(** An exception is represented by its message, [str(e)]. *)
Definition exn : Type := string.

(** The result of an operation that either returns or raises. *)
Inductive outcome (A : Type) : Type :=
| Ok (a : A)
| Raised (e : exn).
Arguments Ok {A} a.
Arguments Raised {A} e.

Set Warnings "-register-all".

(** JSON values, as [json.loads] returns them and [jsonify] serialises them. *)
Inductive json : Type :=
| JNull
| JBool (b : bool)
| JInt (z : Z)
| JFloat (repr : string)
| JStr (s : string)
| JArr (items : list json)
| JObj (fields : list (string * json)).

(** A Flask response: the JSON body and the HTTP status. *)
Record Response : Type := mkResponse { body : json; status : nat }.

(** [return jsonify(j)] answers with status 200, [return jsonify(j), code]
    with the status given. *)
Definition jsonify (j : json) : Response := mkResponse j 200.
Definition jsonify_with (j : json) (code : nat) : Response := mkResponse j code.

(** An uploaded file ([werkzeug.FileStorage]). *)
Record FileStorage : Type := mkFile { filename : string; data : list byte }.

(** [request.files.items()]: the form fields with their files, in order. *)
Definition Request : Type := list (string * FileStorage).

(** A Python [dict] with string keys: insertion order is kept, and setting
    a key that is present keeps its place. *)
Definition dict (V : Type) : Type := list (string * V).

Fixpoint dict_set {V : Type} (d : dict V) (k : string) (v : V) : dict V :=
  match d with
  | [] => [(k, v)]
  | (k', v') :: d' =>
      if String.eqb k' k then (k', v) :: d' else (k', v') :: dict_set d' k v
  end.

(** The entry of [file_info] for one file. *)
Record FileMeta : Type := mkMeta { size : nat; path : string }.

(** The prompts.  The fixed text of the two f-strings is left out: a
    prompt is determined by the values interpolated into it. *)
Inductive Prompt : Type :=
| GenerationPrompt (question files_description : string) (file_info : dict FileMeta)
| RepairPrompt (script error_output question : string) (file_info : dict FileMeta).

(** What [subprocess.run(..., timeout=t)] does: the child completes, the
    timeout expires, or the launch raises something else. *)
Inductive proc_outcome : Type :=
| Completed (returncode : Z) (stdout stderr : string)
| TimeoutExpired
| LaunchError (e : exn).

(** A row of [log.csv]. *)
Record LogRow : Type := mkRow {
  row_question : string; row_ts : string; row_attempt : nat;
  row_returncode : Z; row_stdout : string; row_stderr : string }.

(** Everything outside the handler. *)
Record World : Type := mkWorld {
  (** [tempfile.mkdtemp()] *)
  mkdtemp : outcome string;
  (** [werkzeug.utils.secure_filename] *)
  secure_filename : string -> string;
  (** [file.save(path)] raising *)
  save_fault : string -> option exn;
  (** decoding of a file opened with [encoding='utf-8'] *)
  decode_utf8 : list byte -> outcome string;
  (** [pd.read_csv(path, nrows=n)]: [str(list(df.columns))] and
      [df.to_string()] *)
  pd_read_csv : list byte -> nat -> outcome (string * string);
  (** [anthropic.messages.create(...)]: the text of the content blocks *)
  messages_create : Prompt -> nat -> outcome (list string);
  (** [open(path, 'w')] and [f.write(text)] raising *)
  open_write_fault : string -> string -> option exn;
  (** the n-th call of [subprocess.run(['uv', 'run', path], timeout=t)] *)
  subprocess_run : nat -> string -> nat -> proc_outcome;
  (** appending the row of an attempt to [log.csv] raising *)
  log_fault : nat -> option exn;
  (** [json.loads]: [None] stands for [json.JSONDecodeError] *)
  json_loads : string -> option json;
  (** [traceback.format_exc()] *)
  format_exc : exn -> string;
  (** [datetime.now()] *)
  now : string
}.

(** ** The state the handler acts on *)

(** The observable actions, in the order they happen. *)
Inductive event : Type :=
| EMkdtemp (dir : string)
| ESave (file_path : string)
| ELLM (p : Prompt) (max_tokens : nat)
| EWrite (file_path content : string)
| EExec (script_path : string) (timeout : nat)
| ELog (row : LogRow).

(** The directories made by [mkdtemp] that still exist, the files written
    (the latest first) and the actions so far. *)
Record State : Type := mkState {
  dirs : list string;
  files : list (string * list byte);
  events : list event }.

Definition initial : State := mkState [] [] [].

Fixpoint lookup_file (fs : list (string * list byte)) (p : string)
  : option (list byte) :=
  match fs with
  | [] => None
  | (p', bs) :: fs' => if String.eqb p' p then Some bs else lookup_file fs' p
  end.

(** ** Control flow of a Python block

    A statement goes on to the next one, executes [return], or raises. *)
Inductive flow (A : Type) : Type :=
| Next (a : A)
| Return (r : Response)
| Raise (e : exn).
Arguments Next {A} a.
Arguments Return {A} r.
Arguments Raise {A} e.

Definition M (A : Type) : Type := State -> flow A * State.

Definition ret {A : Type} (a : A) : M A := fun st => (Next a, st).
Definition return_ {A : Type} (r : Response) : M A := fun st => (Return r, st).
Definition raise {A : Type} (e : exn) : M A := fun st => (Raise e, st).

Definition bind {A B : Type} (m : M A) (k : A -> M B) : M B :=
  fun st =>
    match m st with
    | (Next a, st') => k a st'
    | (Return r, st') => (Return r, st')
    | (Raise e, st') => (Raise e, st')
    end.

Declare Scope py_scope.
Delimit Scope py_scope with py.
Notation "x <- m ;; k" := (bind m (fun x => k))
  (at level 61, m at next level, right associativity) : py_scope.
Notation "m ;;; k" := (bind m (fun _ => k))
  (at level 61, right associativity) : py_scope.
Open Scope py_scope.

Definition emit (e : event) : M unit :=
  fun st => (Next tt, mkState (dirs st) (files st) (events st ++ [e])).

Definition get_state : M State := fun st => (Next st, st).

(** [try: m except Exception as e: h e] *)
Definition try_except {A : Type} (m : M A) (h : exn -> M A) : M A :=
  fun st =>
    match m st with
    | (Raise e, st') => h e st'
    | other => other
    end.

(** ** Library calls *)

(** [os.path.join(a, b)] on POSIX paths *)
Definition os_path_join (a b : string) : string :=
  if PyStr.startswith b "/" then b
  else if negb (PyStr.truthy a) || PyStr.endswith a "/" then a ++ b
  else a ++ "/" ++ b.

(** [tempfile.mkdtemp()] *)
Definition tempfile_mkdtemp (w : World) : M string :=
  match mkdtemp w with
  | Ok d =>
      fun st => (Next d, mkState (d :: dirs st) (files st) (events st ++ [EMkdtemp d]))
  | Raised e => raise e
  end.

(** [file.save(file_path)] *)
Definition file_save (w : World) (file : FileStorage) (file_path : string) : M unit :=
  match save_fault w file_path with
  | Some e => raise e
  | None =>
      fun st =>
        (Next tt, mkState (dirs st) ((file_path, data file) :: files st)
                          (events st ++ [ESave file_path]))
  end.

(** [os.path.getsize(file_path)] *)
Definition os_path_getsize (file_path : string) : M nat :=
  fun st =>
    match lookup_file (files st) file_path with
    | Some bs => (Next (List.length bs), st)
    | None => (Raise ("No such file or directory: " ++ file_path), st)
    end.

(** [open(file_path, 'rb').read()] *)
Definition read_bytes (fs : list (string * list byte)) (file_path : string)
  : outcome (list byte) :=
  match lookup_file fs file_path with
  | Some bs => Ok bs
  | None => Raised ("No such file or directory: " ++ file_path)
  end.

(** [open(file_path, 'r', encoding='utf-8').read()] *)
Definition read_text (w : World) (fs : list (string * list byte)) (file_path : string)
  : outcome string :=
  match read_bytes fs file_path with
  | Ok bs => decode_utf8 w bs
  | Raised e => Raised e
  end.

(** [with open(path, 'w') as f: f.write(text)] *)
Definition write_text (w : World) (file_path text : string) : M unit :=
  match open_write_fault w file_path text with
  | Some e => raise e
  | None =>
      fun st =>
        (Next tt, mkState (dirs st) ((file_path, list_byte_of_string text) :: files st)
                          (events st ++ [EWrite file_path text]))
  end.

(** [time.sleep] and [shutil.rmtree]: the module imports neither [time]
    nor [shutil], so looking the name up raises [NameError]. *)
Definition time_sleep (seconds : nat) : M unit :=
  raise "name 'time' is not defined".
Definition shutil_rmtree (dir : string) : M unit :=
  raise "name 'shutil' is not defined".

(** ** [read_file_content] *)

Definition image_suffixes : list string := [".png"; ".jpg"; ".jpeg"].

(** The body of the [try] block. *)
Definition read_file_content_try (w : World) (fs : list (string * list byte))
    (file_path : string) (max_rows : nat) : outcome string :=
  if PyStr.endswith file_path ".csv" then
    match read_bytes fs file_path with
    | Ok bs =>
        match pd_read_csv w bs max_rows with
        | Ok (columns, rendered) =>
            Ok ("CSV file with columns: " ++ columns ++ "
Sample data (first " ++ PyStr.of_nat max_rows ++ " rows):
" ++ rendered)
        | Raised e => Raised e
        end
    | Raised e => Raised e
    end
  else if PyStr.endswith file_path ".txt" then
    read_text w fs file_path
  else if PyStr.endswith_any file_path image_suffixes then
    match read_bytes fs file_path with
    | Ok bs => Ok ("data:image/png;base64," ++ Base64.b64encode bs)
    | Raised e => Raised e
    end
  else
    read_text w fs file_path.

Definition read_file_content (w : World) (fs : list (string * list byte))
    (file_path : string) (max_rows : nat) : string :=
  match read_file_content_try w fs file_path max_rows with
  | Ok s => s
  | Raised e => "Error reading file: " ++ e
  end.

(** ** [generate_analysis_script] and [debug_and_fix_script] *)

(** The loop building [files_description]. *)
Fixpoint describe_files (file_contents : dict string) (files_description : string)
  : string :=
  match file_contents with
  | [] => files_description
  | (filename, content) :: rest =>
      describe_files rest
        (if PyStr.endswith_any filename image_suffixes
         then files_description ++ "
- " ++ filename ++ ": Image file (base64 encoded)
"
         else files_description ++ "
- " ++ filename ++ ":
" ++ PyStr.prefix 1000 content ++ "...
")
  end.

(** [response.content[0].text] *)
Definition first_text (content : list string) : outcome string :=
  match content with
  | t :: _ => Ok t
  | [] => Raised "list index out of range"
  end.

(** The call inside the [try] of both functions. *)
Definition call_model (w : World) (p : Prompt) (max_tokens : nat) : M string :=
  emit (ELLM p max_tokens) ;;;
  match messages_create w p max_tokens with
  | Ok content =>
      match first_text content with
      | Ok t => ret t
      | Raised e => raise e
      end
  | Raised e => raise e
  end.

Definition generate_analysis_script (w : World) (question : string)
    (file_contents : dict string) (file_info : dict FileMeta) : M string :=
  let files_description := describe_files file_contents "" in
  let prompt := GenerationPrompt question files_description file_info in
  try_except (call_model w prompt 5000)
             (fun e => ret ("# Error generating script: " ++ e)).

Definition debug_and_fix_script (w : World) (script error_output question : string)
    (file_info : dict FileMeta) : M string :=
  let prompt := RepairPrompt script error_output question file_info in
  try_except (call_model w prompt 4000)
             (fun e => ret ("# Error debugging script: " ++ e)).

(** ** [run_script_with_uv] *)

Definition timeout_message : string := "Script execution timed out after 180 seconds".

Definition count_exec (evs : list event) : nat :=
  List.length (filter (fun e => match e with EExec _ _ => true | _ => false end) evs).

(** The three [return] statements: the result of a completed child, the
    timeout answer and the answer to any other exception. *)
Definition harness_result (o : proc_outcome) : Z * string * string :=
  match o with
  | Completed returncode stdout stderr => (returncode, stdout, stderr)
  | TimeoutExpired => ((-1)%Z, "", timeout_message)
  | LaunchError e => ((-1)%Z, "", "Error running script: " ++ e)
  end.

Definition run_script_with_uv (w : World) (script_path : string) (timeout : nat)
  : M (Z * string * string) :=
  st <- get_state ;;
  emit (EExec script_path timeout) ;;;
  ret (harness_result (subprocess_run w (count_exec (events st)) script_path timeout)).

(** ** [analyze_data] *)

(** [str(z)] for an integer *)
Definition str_of_Z (z : Z) : string := NilEmpty.string_of_int (Z.to_int z).

(** The local variables filled by the loop over the uploaded files. *)
Record Uploaded : Type := mkUploaded {
  file_contents : dict string;
  file_info : dict FileMeta;
  question : string }.

Definition is_question_key (key : string) : bool :=
  String.eqb key "questions.txt" || PyStr.startswith key "question".

(** [for key, file in request.files.items(): ...] *)
Fixpoint process_files (w : World) (temp_dir : string) (items : Request)
    (loc : Uploaded) : M Uploaded :=
  match items with
  | [] => ret loc
  | (key, file) :: rest =>
      if PyStr.truthy (filename file) then
        let name := secure_filename w (filename file) in
        let file_path := os_path_join temp_dir name in
        file_save w file file_path ;;;
        sz <- os_path_getsize file_path ;;
        let info := dict_set (file_info loc) name (mkMeta sz file_path) in
        st <- get_state ;;
        let content := read_file_content w (files st) file_path 10 in
        process_files w temp_dir rest
          (if is_question_key key
           then mkUploaded (file_contents loc) info content
           else mkUploaded (dict_set (file_contents loc) name content) info
                           (question loc))
      else process_files w temp_dir rest loc
  end.

(** The attempt bound written in the source. *)
Definition max_attempts : nat := 1.

Definition input_error : Response :=
  jsonify_with (JObj [("error", JStr "No questions.txt file found")]) 400.

Definition placeholder : Response :=
  jsonify (JArr [JInt 1; JStr "a"; JInt 23; JStr "bc"]).

Definition failure_payload (stdout stderr script_content : string) : Response :=
  jsonify_with
    (JObj [("error", JStr "Script execution failed after multiple attempts");
           ("last_stdout", JStr stdout);
           ("last_stderr", JStr stderr);
           ("last_script", JStr script_content)]) 500.

Definition internal_error (w : World) (e : exn) : Response :=
  jsonify_with
    (JObj [("error", JStr ("Internal server error: " ++ e));
           ("traceback", JStr (format_exc w e))]) 500.

(** [with open('log.csv', mode='a') ...: writer.writerow([...])] *)
Definition append_log (w : World) (row : LogRow) : M unit :=
  match log_fault w (row_attempt row) with
  | Some e => raise e
  | None => emit (ELog row)
  end.

(** The success predicate: [returncode == 0 and stdout.strip()] *)
Definition succeeded (returncode : Z) (stdout : string) : bool :=
  (returncode =? 0)%Z && PyStr.truthy (PyStr.strip stdout).

(** The response of the success branch. *)
Definition success_response (w : World) (stdout : string) : Response :=
  match json_loads w (PyStr.strip stdout) with
  | Some result => jsonify result
  | None => jsonify (JObj [("result", JStr (PyStr.strip stdout))])
  end.

(** [if returncode == 0 and stdout.strip(): ... return ...] *)
Definition classify (w : World) (returncode : Z) (stdout : string) : M unit :=
  if succeeded returncode stdout then return_ (success_response w stdout)
  else ret tt.

Definition error_info (returncode : Z) (stdout stderr : string) : string :=
  "Return code: " ++ str_of_Z returncode ++ "
Stdout: " ++ stdout ++ "
Stderr: " ++ stderr.

(** The variables the retry loop updates: the script, and the output of the
    latest attempt once there is one. *)
Record LoopVars : Type := mkVars {
  script_content : string;
  last_output : option (string * string) }.

(** The body of [for attempt in range(bound)]. *)
Definition attempt_body (w : World) (bound : nat) (q : string)
    (info : dict FileMeta) (script_path : string) (attempt : nat)
    (script : string) : M LoopVars :=
  r <- run_script_with_uv w script_path 150 ;;
  let '(returncode, stdout, stderr) := r in
  append_log w (mkRow q (now w) attempt returncode stdout stderr) ;;;
  classify w returncode stdout ;;;
  if (Z.of_nat attempt <? Z.of_nat bound - 1)%Z then
    fixed <- debug_and_fix_script w script (error_info returncode stdout stderr) q info ;;
    write_text w script_path fixed ;;;
    ret (mkVars fixed (Some (stdout, stderr)))
  else
    return_ placeholder.

Fixpoint for_attempts (w : World) (bound : nat) (q : string)
    (info : dict FileMeta) (script_path : string) (range : list nat)
    (vars : LoopVars) : M LoopVars :=
  match range with
  | [] => ret vars
  | attempt :: rest =>
      vars' <- attempt_body w bound q info script_path attempt (script_content vars) ;;
      for_attempts w bound q info script_path rest vars'
  end.

(** The [UnboundLocalError] of reading [stdout] when the loop body never ran. *)
Definition unbound_stdout : exn := "cannot access local variable 'stdout'".

(** The statements after the loop: the failure answer, then the clean-up. *)
Definition after_loop (temp_dir : string) (vars : LoopVars) : M unit :=
  match last_output vars with
  | None => raise unbound_stdout
  | Some (stdout, stderr) =>
      return_ (A := unit) (failure_payload stdout stderr (script_content vars)) ;;;
      time_sleep 4 ;;;
      try_except (shutil_rmtree temp_dir) (fun _ => ret tt)
  end.

(** From script generation to the end of the [try] block. *)
Definition generate_and_run (w : World) (bound : nat) (temp_dir : string)
    (up : Uploaded) : M unit :=
  generated <- generate_analysis_script w (question up) (file_contents up) (file_info up) ;;
  let script := PyStr.replace (PyStr.replace generated "```python" "") "```" "" in
  let script_path := os_path_join temp_dir "analysis_script.py" in
  write_text w script_path script ;;;
  vars <- for_attempts w bound (question up) (file_info up) script_path
            (seq 0 bound) (mkVars script None) ;;
  after_loop temp_dir vars.

(** The [try] block of the handler. *)
Definition analyze_data_try (w : World) (bound : nat) (req : Request) : M unit :=
  temp_dir <- tempfile_mkdtemp w ;;
  up <- process_files w temp_dir req (mkUploaded [] [] "") ;;
  (if negb (PyStr.truthy (question up)) then return_ input_error else ret tt) ;;;
  generate_and_run w bound temp_dir up.

(** The handler: what the [try] block returns, the internal-error answer
    when it raises, and no answer when it runs off its end. *)
Definition analyze_data_with (w : World) (bound : nat) (req : Request) (st : State)
  : option Response * State :=
  match analyze_data_try w bound req st with
  | (Return r, st') => (Some r, st')
  | (Raise e, st') => (Some (internal_error w e), st')
  | (Next _, st') => (None, st')
  end.

Definition analyze_data (w : World) (req : Request) (st : State)
  : option Response * State :=
  analyze_data_with w max_attempts req st.

(** [health_check] *)
Definition health_check : Response := jsonify (JObj [("status", JStr "healthy")]).

(** ** Sample worlds and requests *)

Module Sample.

(** A toy parser: it knows the numeral [42] and the array [[1]]. *)
Definition toy_loads (s : string) : option json :=
  if String.eqb s "42" then Some (JInt 42)
  else if String.eqb s "[1]" then Some (JArr [JInt 1])
  else None.

(** A world where nothing raises but what the arguments say. *)
Definition world (tmp : outcome string) (save_f : option exn)
    (llm : outcome (list string)) (write_f : option exn)
    (run : proc_outcome) (log_f : option exn) : World :=
  mkWorld tmp (fun n => n) (fun _ => save_f)
          (fun bs => Ok (string_of_list_byte bs))
          (fun _ _ => Ok ("['a', 'b', 'c']", "   a  b  c"))
          (fun _ _ => llm) (fun _ _ => write_f)
          (fun _ _ _ => run) (fun _ => log_f)
          toy_loads (fun e => "Traceback (most recent call last): " ++ e)
          "2025-08-01 10:00:00".

Definition tmp : string := "/tmp/tmpk3x9".

(** The script prints [hello world]. *)
Definition hello : World :=
  world (Ok tmp) None (Ok ["print('hello world')"]) None
        (Completed 0 "hello world
" "") None.

(** The script prints [42]. *)
Definition answer : World :=
  world (Ok tmp) None (Ok ["print(42)"]) None (Completed 0 " 42
" "") None.

(** The script exits with code 1. *)
Definition failing : World :=
  world (Ok tmp) None (Ok ["raise SystemExit(1)"]) None
        (Completed 1 "partial" "boom") None.

(** The child outlives the timeout. *)
Definition slow : World :=
  world (Ok tmp) None (Ok ["while True: pass"]) None TimeoutExpired None.

(** The child is killed by signal 1 after writing the words of the
    timeout message to its standard error. *)
Definition hangup : World :=
  world (Ok tmp) None (Ok ["..."]) None (Completed (-1) "" timeout_message) None.


(** Saving an upload raises. *)
Definition unsaved : World :=
  world (Ok tmp) (Some "[Errno 21] Is a directory") (Ok ["print(42)"]) None
        (Completed 0 "42" "") None.

(** Writing the script raises. *)
Definition unwritable : World :=
  world (Ok tmp) None (Ok ["print(42)"]) (Some "[Errno 28] No space left on device")
        (Completed 0 "42" "") None.

(** [mkdtemp] raises. *)
Definition no_tmp : World :=
  world (Raised "[Errno 13] Permission denied") None (Ok ["print(42)"]) None
        (Completed 0 "42" "") None.

(** [secure_filename] leaves nothing of the name [??], and a path that
    ends in a slash names a directory, which cannot be opened for
    writing. *)
Definition sanitize (name : string) : string :=
  if String.eqb name "??" then "" else name.

Definition posix : World :=
  mkWorld (Ok tmp) sanitize
          (fun p => if PyStr.endswith p "/"
                    then Some "[Errno 21] Is a directory" else None)
          (fun bs => Ok (string_of_list_byte bs))
          (fun _ _ => Ok ("['a', 'b', 'c']", "   a  b  c"))
          (fun _ _ => Ok ["print(42)"]) (fun _ _ => None)
          (fun _ _ _ => Completed 0 "42" "") (fun _ => None)
          toy_loads (fun e => "Traceback (most recent call last): " ++ e)
          "2025-08-01 10:00:00".

(** No upload decodes as UTF-8. *)
Definition garbled : World :=
  mkWorld (Ok tmp) (fun n => n) (fun _ => None)
          (fun _ => Raised "'utf-8' codec can't decode byte 0xff")
          (fun _ _ => Ok ("['a', 'b', 'c']", "   a  b  c"))
          (fun _ _ => Ok ["print(42)"]) (fun _ _ => None)
          (fun _ _ _ => Completed 0 "42" "") (fun _ => None)
          toy_loads (fun e => "Traceback (most recent call last): " ++ e)
          "2025-08-01 10:00:00".

Definition upload (name text : string) : FileStorage :=
  mkFile name (list_byte_of_string text).

(** A question and nothing else. *)
Definition ask : Request := [("questions.txt", upload "questions.txt" "How many rows?")].

(** A data file and no question. *)
Definition data_only : Request := [("data", upload "data.csv" "a,b,c")].

(** A data file whose name is [??], and no question. *)
Definition odd_name : Request := [("data", upload "??" "a,b,c")].

(** No upload at all. *)
Definition empty : Request := [].

(** A question field whose upload has no file name. *)
Definition unnamed_question : Request := [("questions.txt", upload "" "How many rows?")].

(** A question file with no content. *)
Definition blank_question : Request := [("questions.txt", upload "questions.txt" "")].

End Sample.

(** ** Observations on a run *)

Definition is_save (e : event) : bool :=
  match e with ESave _ => true | _ => false end.
Definition is_llm (e : event) : bool :=
  match e with ELLM _ _ => true | _ => false end.
Definition is_generation (e : event) : bool :=
  match e with ELLM (GenerationPrompt _ _ _) _ => true | _ => false end.
Definition is_repair (e : event) : bool :=
  match e with ELLM (RepairPrompt _ _ _ _) _ => true | _ => false end.
Definition is_write (e : event) : bool :=
  match e with EWrite _ _ => true | _ => false end.

Definition count (p : event -> bool) (evs : list event) : nat :=
  List.length (filter p evs).

(** The attempt indices logged, in order. *)
Fixpoint log_attempts (evs : list event) : list nat :=
  match evs with
  | [] => []
  | ELog row :: rest => row_attempt row :: log_attempts rest
  | _ :: rest => log_attempts rest
  end.

(** The actions of a run from [st] to [st']. *)
Definition new_events (st st' : State) : list event :=
  skipn (List.length (events st)) (events st').

(** The actions of handling [req] in world [w] from state [st]. *)
Definition trace_of (w : World) (req : Request) (st : State) : list event :=
  new_events st (snd (analyze_data w req st)).

Definition response_of (w : World) (req : Request) (st : State) : option Response :=
  fst (analyze_data w req st).

(** A form field that can carry the question. *)
Definition has_question_field (req : Request) : bool :=
  existsb (fun kf => is_question_key (fst kf)) req.

(** A run of saves only: no model call, no execution, no log row. *)
Definition saves_only (d : list event) : Prop := forallb is_save d = true.

(** ** States and values reached along a run *)

(** [st] with the actions [evs] added. *)
Definition push (st : State) (evs : list event) : State :=
  mkState (dirs st) (files st) (events st ++ evs).

(** [st] after the text [text] has been written to [file_path]. *)
Definition written (st : State) (file_path text : string) : State :=
  mkState (dirs st) ((file_path, list_byte_of_string text) :: files st)
          (events st ++ [EWrite file_path text]).

(** The state after [file.save(file_path)]. *)
Definition saved (st : State) (file : FileStorage) (file_path : string) : State :=
  mkState (dirs st) ((file_path, data file) :: files st)
          (events st ++ [ESave file_path]).

(** The local variables after one named upload has been processed. *)
Definition uploaded_next (w : World) (temp_dir key : string) (file : FileStorage)
    (loc : Uploaded) (st : State) : Uploaded :=
  let name := secure_filename w (filename file) in
  let file_path := os_path_join temp_dir name in
  let info := dict_set (file_info loc) name (mkMeta (List.length (data file)) file_path) in
  let content := read_file_content w (files (saved st file file_path)) file_path 10 in
  if is_question_key key
  then mkUploaded (file_contents loc) info content
  else mkUploaded (dict_set (file_contents loc) name content) info (question loc).

(** What the service answers to a prompt: the first text block. *)
Definition reply_text (w : World) (p : Prompt) (max_tokens : nat) : outcome string :=
  match messages_create w p max_tokens with
  | Ok content => first_text content
  | Raised e => Raised e
  end.

(** The value [generate_analysis_script] returns. *)
Definition generated_text (w : World) (p : Prompt) : string :=
  match reply_text w p 5000 with
  | Ok t => t
  | Raised e => "# Error generating script: " ++ e
  end.

(** The value [debug_and_fix_script] returns. *)
Definition repaired_text (w : World) (p : Prompt) : string :=
  match reply_text w p 4000 with
  | Ok t => t
  | Raised e => "# Error debugging script: " ++ e
  end.

(** The code fences taken out of the generated text. *)
Definition strip_fences (generated : string) : string :=
  PyStr.replace (PyStr.replace generated "```python" "") "```" "".

(** ** The retry loop as a relation on traces

    [attempt_step w bound q attempt fl d]: one pass through the loop body
    for the index [attempt] ends as [fl] and performs the actions [d]. *)
Inductive attempt_step (w : World) (bound : nat) (q : string) (attempt : nat)
  : flow LoopVars -> list event -> Prop :=
| step_log_fault script_path e :
    attempt_step w bound q attempt (Raise e) [EExec script_path 150]
| step_success script_path row :
    row_attempt row = attempt ->
    succeeded (row_returncode row) (row_stdout row) = true ->
    attempt_step w bound q attempt
      (Return (success_response w (row_stdout row)))
      [EExec script_path 150; ELog row]
| step_last script_path row :
    row_attempt row = attempt ->
    succeeded (row_returncode row) (row_stdout row) = false ->
    (Z.of_nat attempt <? Z.of_nat bound - 1)%Z = false ->
    attempt_step w bound q attempt (Return placeholder)
      [EExec script_path 150; ELog row]
| step_repair_fault script_path row script err info e :
    row_attempt row = attempt ->
    succeeded (row_returncode row) (row_stdout row) = false ->
    (Z.of_nat attempt <? Z.of_nat bound - 1)%Z = true ->
    attempt_step w bound q attempt (Raise e)
      [EExec script_path 150; ELog row; ELLM (RepairPrompt script err q info) 4000]
| step_repaired script_path row script err info vars :
    row_attempt row = attempt ->
    succeeded (row_returncode row) (row_stdout row) = false ->
    (Z.of_nat attempt <? Z.of_nat bound - 1)%Z = true ->
    last_output vars = Some (row_stdout row, row_stderr row) ->
    attempt_step w bound q attempt (Next vars)
      [EExec script_path 150; ELog row; ELLM (RepairPrompt script err q info) 4000;
       EWrite script_path (script_content vars)].

(** [loop_run w bound q range fl d]: the loop over the indices [range] ends
    as [fl] and performs the actions [d]. *)
Inductive loop_run (w : World) (bound : nat) (q : string)
  : list nat -> LoopVars -> flow LoopVars -> list event -> Prop :=
| loop_done vars :
    loop_run w bound q [] vars (Next vars) []
| loop_return attempt rest vars r d :
    attempt_step w bound q attempt (Return r) d ->
    loop_run w bound q (attempt :: rest) vars (Return r) d
| loop_raise attempt rest vars e d :
    attempt_step w bound q attempt (Raise e) d ->
    loop_run w bound q (attempt :: rest) vars (Raise e) d
| loop_continue attempt rest vars vars' fl d d' :
    attempt_step w bound q attempt (Next vars') d ->
    loop_run w bound q rest vars' fl d' ->
    loop_run w bound q (attempt :: rest) vars fl (d ++ d').

(** The indices below [bound - 1]: the attempts a repair may follow. *)
Definition repairable (bound : nat) (range : list nat) : list nat :=
  filter (fun a => (Z.of_nat a <? Z.of_nat bound - 1)%Z) range.

(** ** The handler as a relation on traces *)

(** What [read_file_content] makes of an upload once it is saved under the
    temporary directory. *)
Definition content_of (w : World) (temp_dir : string) (file : FileStorage) : string :=
  let file_path := os_path_join temp_dir (secure_filename w (filename file)) in
  read_file_content w [(file_path, data file)] file_path 10.

(** An upload that sets [question]: it has a file name and its form field
    has a question name. *)
Definition sets_question (kf : string * FileStorage) : bool :=
  PyStr.truthy (filename (snd kf)) && is_question_key (fst kf).

(** The value of [question] after the loop over the uploads, when no save
    raises: the content of the last upload that sets it. *)
Fixpoint final_question (w : World) (temp_dir : string) (items : Request)
    (question : string) : string :=
  match items with
  | [] => question
  | kf :: rest =>
      final_question w temp_dir rest
        (if sets_question kf then content_of w temp_dir (snd kf) else question)
  end.

(** [handler_run w bound req fl d]: the [try] block of the handler ends as
    [fl] and performs the actions [d]. *)
Inductive handler_run (w : World) (bound : nat) (req : Request)
  : flow unit -> list event -> Prop :=
| run_no_tmp e :
    mkdtemp w = Raised e ->
    handler_run w bound req (Raise e) []
| run_save_fault temp_dir d file_path e :
    mkdtemp w = Ok temp_dir -> saves_only d ->
    save_fault w file_path = Some e ->
    handler_run w bound req (Raise e) (EMkdtemp temp_dir :: d)
| run_no_question temp_dir d :
    mkdtemp w = Ok temp_dir -> saves_only d ->
    final_question w temp_dir req "" = "" ->
    handler_run w bound req (Return input_error) (EMkdtemp temp_dir :: d)
| run_write_fault temp_dir d desc info script e :
    mkdtemp w = Ok temp_dir -> saves_only d ->
    final_question w temp_dir req "" <> "" ->
    open_write_fault w (os_path_join temp_dir "analysis_script.py") script = Some e ->
    handler_run w bound req (Raise e)
      (EMkdtemp temp_dir
       :: d ++ [ELLM (GenerationPrompt (final_question w temp_dir req "") desc info) 5000])
| run_loop_return temp_dir d desc info script vars r dl :
    mkdtemp w = Ok temp_dir -> saves_only d ->
    final_question w temp_dir req "" <> "" ->
    loop_run w bound (final_question w temp_dir req "") (seq 0 bound) vars (Return r) dl ->
    handler_run w bound req (Return r)
      (EMkdtemp temp_dir
       :: d ++ [ELLM (GenerationPrompt (final_question w temp_dir req "") desc info) 5000;
                EWrite (os_path_join temp_dir "analysis_script.py") script] ++ dl)
| run_loop_raise temp_dir d desc info script vars e dl :
    mkdtemp w = Ok temp_dir -> saves_only d ->
    final_question w temp_dir req "" <> "" ->
    loop_run w bound (final_question w temp_dir req "") (seq 0 bound) vars (Raise e) dl ->
    handler_run w bound req (Raise e)
      (EMkdtemp temp_dir
       :: d ++ [ELLM (GenerationPrompt (final_question w temp_dir req "") desc info) 5000;
                EWrite (os_path_join temp_dir "analysis_script.py") script] ++ dl)
| run_unbound temp_dir d desc info script :
    mkdtemp w = Ok temp_dir -> saves_only d ->
    final_question w temp_dir req "" <> "" ->
    bound = 0 ->
    handler_run w bound req (Raise unbound_stdout)
      (EMkdtemp temp_dir
       :: d ++ [ELLM (GenerationPrompt (final_question w temp_dir req "") desc info) 5000;
                EWrite (os_path_join temp_dir "analysis_script.py") script]).

(** The answer of the handler for each way its [try] block can end. *)
Definition answer (w : World) (fl : flow unit) : option Response :=
  match fl with
  | Return r => Some r
  | Raise e => Some (internal_error w e)
  | Next _ => None
  end.

(** The directories after the handler has run. *)
Definition dirs_after (w : World) (st : State) : list string :=
  match mkdtemp w with
  | Ok temp_dir => temp_dir :: dirs st
  | Raised _ => dirs st
  end.

(** ** Further observations *)

(** Some character of [s] is not white space. *)
Fixpoint has_visible (s : string) : bool :=
  match s with
  | EmptyString => false
  | String c s' => negb (PyStr.isspace c) || has_visible s'
  end.

(** The question a prompt carries. *)
Definition prompt_question (p : Prompt) : string :=
  match p with
  | GenerationPrompt q _ _ => q
  | RepairPrompt _ _ q _ => q
  end.

(** The output budget the source passes with each kind of prompt. *)
Definition prompt_budget (p : Prompt) : nat :=
  match p with
  | GenerationPrompt _ _ _ => 5000
  | RepairPrompt _ _ _ _ => 4000
  end.

(** An upload with a file name: the only kind the loop over the uploads
    looks at. *)
Definition named (kf : string * FileStorage) : bool :=
  PyStr.truthy (filename (snd kf)).

(** Two uploads that can set the question. *)
Definition two_questions : Request :=
  [("questions.txt", Sample.upload "q1.txt" "First?");
   ("question_b", Sample.upload "q2.txt" "Second?")].

(** The keys of a [dict], in order. *)
Definition keys {V : Type} (d : dict V) : list string := map fst d.

(** [meta] is what the loop over the uploads records under [name] for
    one of the named uploads of [items]. *)
Definition recorded (w : World) (temp_dir : string) (items : Request)
    (name : string) (meta : FileMeta) : Prop :=
  exists key file,
    In (key, file) items
    /\ filename file <> ""
    /\ name = secure_filename w (filename file)
    /\ meta = mkMeta (List.length (data file)) (os_path_join temp_dir name).

(** [p] occurs in [s]. *)
Fixpoint contains (s p : string) : bool :=
  PyStr.startswith s p
  || match s with
     | EmptyString => false
     | String _ s' => contains s' p
     end.

(** [ev] is the save of a named upload of [items] under [temp_dir]. *)
Definition save_of (w : World) (temp_dir : string) (items : Request) (ev : event)
  : Prop :=
  exists key file,
    In (key, file) items
    /\ filename file <> ""
    /\ ev = ESave (os_path_join temp_dir (secure_filename w (filename file))).

(** A question, and a data file named like the script of the handler. *)
Definition clobber : Request :=
  [("questions.txt", Sample.upload "questions.txt" "How many rows?");
   ("data", Sample.upload "analysis_script.py" "print('mine')")].

(** The language model wraps its script in a code fence. *)
Definition fenced : World :=
  Sample.world (Ok Sample.tmp) None (Ok ["```python
print(42)
```"]) None (Completed 0 "42" "") None.



(** The number of characters one file adds to [files_description]: the
    name and a fixed text for an image, the name and at most 1000
    characters of the preview for any other file. *)
Definition entry_cost (entry : string * string) : nat :=
  if PyStr.endswith_any (fst entry) image_suffixes
  then String.length (fst entry) + 33
  else String.length (fst entry) + 9 + Nat.min 1000 (String.length (snd entry)).

Definition description_cost (file_contents : dict string) : nat :=
  list_sum (map entry_cost file_contents).

(** A character of the base64 alphabet, or the padding character. *)
Definition is_base64_char (c : ascii) : bool :=
  existsb (Ascii.eqb c) (list_ascii_of_string Base64.alphabet) || Ascii.eqb c "=".

Fixpoint all_chars (p : ascii -> bool) (s : string) : bool :=
  match s with
  | EmptyString => true
  | String c s' => p c && all_chars p s'
  end.


(** * Properties *)

(** ** The string and encoding functions on examples *)

Example strip_hello : PyStr.strip "  hello world
" = "hello world".
Proof. reflexivity. Qed.

Example replace_fence :
  PyStr.replace "```python x```" "```python" "" = " x```".
Proof. reflexivity. Qed.

Example endswith_png : PyStr.endswith "b.png" ".png" = true.
Proof. reflexivity. Qed.

Example b64_man : Base64.b64encode (list_byte_of_string "Man") = "TWFu".
Proof. reflexivity. Qed.

Example b64_ma : Base64.b64encode (list_byte_of_string "Ma") = "TWE=".
Proof. reflexivity. Qed.

Example b64_m : Base64.b64encode (list_byte_of_string "M") = "TQ==".
Proof. reflexivity. Qed.

Example b64_bytes :
  Base64.b64encode [Byte.xff; Byte.xfe; Byte.x00; Byte.x10] = "//4AEA==".
Proof. reflexivity. Qed.

Example strip_blank : PyStr.strip "  
 " = "".
Proof. reflexivity. Qed.

(** ** Traces *)

Lemma skipn_length_app {A : Type} (l d : list A) :
  skipn (List.length l) (l ++ d)%list = d.
Proof. induction l as [|a l IH]; simpl; auto. Qed.

Lemma new_events_app (st st' : State) (d : list event) :
  events st' = (events st ++ d)%list -> new_events st st' = d.
Proof. unfold new_events. intros ->. apply skipn_length_app. Qed.

Lemma count_app (p : event -> bool) (a b : list event) :
  count p (a ++ b)%list = count p a + count p b.
Proof. unfold count. rewrite filter_app, length_app. reflexivity. Qed.

Lemma count_exec_app (a b : list event) :
  count_exec (a ++ b)%list = count_exec a + count_exec b.
Proof. unfold count_exec. rewrite filter_app, length_app. reflexivity. Qed.

Lemma log_attempts_app (a b : list event) :
  log_attempts (a ++ b)%list = (log_attempts a ++ log_attempts b)%list.
Proof.
  induction a as [|e a IH]; simpl; auto.
  destruct e; simpl; auto. now rewrite IH.
Qed.

Lemma saves_only_app (a b : list event) :
  saves_only a -> saves_only b -> saves_only (a ++ b)%list.
Proof. unfold saves_only. intros Ha Hb. now rewrite forallb_app, Ha, Hb. Qed.

Lemma saves_only_count (p : event -> bool) (d : list event) :
  (forall e, is_save e = true -> p e = false) ->
  saves_only d -> count p d = 0.
Proof.
  intros Hp. unfold saves_only, count.
  induction d as [|e d IH]; simpl; auto.
  intros H. apply andb_true_iff in H as [He Hd].
  rewrite (Hp e He). auto.
Qed.

Lemma saves_only_exec (d : list event) : saves_only d -> count_exec d = 0.
Proof.
  unfold saves_only, count_exec.
  induction d as [|e d IH]; simpl; auto.
  intros H. apply andb_true_iff in H as [He Hd].
  destruct e; simpl in *; try discriminate; auto.
Qed.

Lemma saves_only_log (d : list event) : saves_only d -> log_attempts d = [].
Proof.
  unfold saves_only.
  induction d as [|e d IH]; simpl; auto.
  intros H. apply andb_true_iff in H as [He Hd].
  destruct e; simpl in *; try discriminate; auto.
Qed.

(** ** The loop over the uploaded files *)

Lemma process_files_cons (w : World) (temp_dir key : string) (file : FileStorage)
    (rest : Request) (loc : Uploaded) (st : State) :
  process_files w temp_dir ((key, file) :: rest) loc st =
  if PyStr.truthy (filename file) then
    let file_path := os_path_join temp_dir (secure_filename w (filename file)) in
    match save_fault w file_path with
    | Some e => (Raise e, st)
    | None =>
        process_files w temp_dir rest (uploaded_next w temp_dir key file loc st)
                      (saved st file file_path)
    end
  else process_files w temp_dir rest loc st.
Proof.
  simpl. destruct (PyStr.truthy (filename file)); [|reflexivity].
  unfold bind, file_save, os_path_getsize, get_state, raise.
  destruct (save_fault w _) as [e|]; [reflexivity|].
  simpl. rewrite String.eqb_refl. unfold uploaded_next, saved. simpl.
  destruct (is_question_key key); reflexivity.
Qed.

(** It only saves files, leaves the directories alone and never executes
    [return]. *)
Lemma process_files_trace (w : World) (temp_dir : string) (items : Request) :
  forall (loc : Uploaded) (st : State),
    (exists d, events (snd (process_files w temp_dir items loc st)) = (events st ++ d)%list
               /\ saves_only d)
    /\ dirs (snd (process_files w temp_dir items loc st)) = dirs st
    /\ (forall r, fst (process_files w temp_dir items loc st) <> Return r).
Proof.
  induction items as [|[key file] rest IH]; intros loc st.
  - simpl. repeat split; try discriminate.
    exists []. split; [now rewrite app_nil_r | reflexivity].
  - rewrite process_files_cons.
    destruct (PyStr.truthy (filename file)); [|apply IH].
    cbv zeta. destruct (save_fault w _) as [e|].
    + simpl. repeat split; try discriminate.
      exists []. split; [now rewrite app_nil_r | reflexivity].
    + match goal with
      | |- context [process_files w temp_dir rest ?l ?s] =>
          destruct (IH l s) as [[d [Hd Hs]] [Hdirs Hret]]
      end.
      repeat split; auto.
      exists (ESave (os_path_join temp_dir (secure_filename w (filename file))) :: d).
      split.
      * rewrite Hd. simpl. now rewrite <- app_assoc.
      * exact Hs.
Qed.

(** ** The two calls of the language model *)

Lemma call_model_eq (w : World) (p : Prompt) (n : nat) (st : State) :
  call_model w p n st =
  (match reply_text w p n with Ok t => Next t | Raised e => Raise e end,
   push st [ELLM p n]).
Proof.
  unfold call_model, bind, emit, reply_text, push.
  destruct (messages_create w p n) as [content|e]; simpl; [|reflexivity].
  destruct (first_text content); reflexivity.
Qed.

Lemma generate_analysis_script_eq (w : World) (q : string)
    (fc : dict string) (fi : dict FileMeta) (st : State) :
  let p := GenerationPrompt q (describe_files fc "") fi in
  generate_analysis_script w q fc fi st =
  (Next (generated_text w p), push st [ELLM p 5000]).
Proof.
  unfold generate_analysis_script, try_except, generated_text. cbv zeta.
  rewrite call_model_eq. destruct (reply_text w _ 5000); reflexivity.
Qed.

Lemma debug_and_fix_script_eq (w : World) (script err q : string)
    (fi : dict FileMeta) (st : State) :
  let p := RepairPrompt script err q fi in
  debug_and_fix_script w script err q fi st =
  (Next (repaired_text w p), push st [ELLM p 4000]).
Proof.
  unfold debug_and_fix_script, try_except, repaired_text. cbv zeta.
  rewrite call_model_eq. destruct (reply_text w _ 4000); reflexivity.
Qed.

Lemma write_text_eq (w : World) (file_path text : string) (st : State) :
  write_text w file_path text st =
  match open_write_fault w file_path text with
  | Some e => (Raise e, st)
  | None => (Next tt, written st file_path text)
  end.
Proof. unfold write_text. destruct (open_write_fault w file_path text); reflexivity. Qed.

Lemma run_script_with_uv_eq (w : World) (script_path : string) (timeout : nat)
    (st : State) :
  run_script_with_uv w script_path timeout st =
  (Next (harness_result (subprocess_run w (count_exec (events st)) script_path timeout)),
   push st [EExec script_path timeout]).
Proof. reflexivity. Qed.

(** ** One attempt *)

Lemma attempt_body_eq (w : World) (bound : nat) (q : string) (info : dict FileMeta)
    (script_path : string) (attempt : nat) (script : string) (st : State) :
  attempt_body w bound q info script_path attempt script st =
  let '(returncode, stdout, stderr) :=
    harness_result (subprocess_run w (count_exec (events st)) script_path 150) in
  let st1 := push st [EExec script_path 150] in
  match log_fault w attempt with
  | Some e => (Raise e, st1)
  | None =>
      let st2 := push st1 [ELog (mkRow q (now w) attempt returncode stdout stderr)] in
      if succeeded returncode stdout then (Return (success_response w stdout), st2)
      else if (Z.of_nat attempt <? Z.of_nat bound - 1)%Z then
        let p := RepairPrompt script (error_info returncode stdout stderr) q info in
        let st3 := push st2 [ELLM p 4000] in
        match open_write_fault w script_path (repaired_text w p) with
        | Some e => (Raise e, st3)
        | None =>
            (Next (mkVars (repaired_text w p) (Some (stdout, stderr))),
             written st3 script_path (repaired_text w p))
        end
      else (Return placeholder, st2)
  end.
Proof.
  unfold attempt_body. unfold bind at 1. rewrite run_script_with_uv_eq.
  destruct (harness_result _) as [[returncode stdout] stderr].
  unfold bind at 1, append_log. cbn [row_attempt].
  destruct (log_fault w attempt) as [e|]; [reflexivity|].
  unfold emit. cbv zeta.
  unfold bind at 1, classify.
  destruct (succeeded returncode stdout); [reflexivity|].
  unfold ret at 1. cbv beta iota.
  destruct (Z.of_nat attempt <? Z.of_nat bound - 1)%Z; [|reflexivity].
  unfold bind at 1. rewrite debug_and_fix_script_eq. cbv zeta.
  unfold bind. rewrite write_text_eq.
  destruct (open_write_fault w script_path _); reflexivity.
Qed.

Lemma attempt_body_step (w : World) (bound : nat) (q : string) (info : dict FileMeta)
    (script_path : string) (attempt : nat) (script : string) (st : State) :
  exists d,
    attempt_step w bound q attempt
      (fst (attempt_body w bound q info script_path attempt script st)) d
    /\ events (snd (attempt_body w bound q info script_path attempt script st))
       = (events st ++ d)%list
    /\ dirs (snd (attempt_body w bound q info script_path attempt script st)) = dirs st.
Proof.
  rewrite attempt_body_eq.
  destruct (harness_result _) as [[returncode stdout] stderr]. cbv zeta.
  destruct (log_fault w attempt) as [e|].
  { eexists. split; [apply step_log_fault|]. split; reflexivity. }
  set (row := mkRow q (now w) attempt returncode stdout stderr).
  destruct (succeeded returncode stdout) eqn:Hs.
  { exists [EExec script_path 150; ELog row]. split.
    - apply (step_success w bound q attempt script_path row); auto.
    - split; simpl; [now rewrite <- app_assoc | reflexivity]. }
  destruct (Z.of_nat attempt <? Z.of_nat bound - 1)%Z eqn:Hlt.
  2:{ exists [EExec script_path 150; ELog row]. split.
      - apply (step_last w bound q attempt script_path row); auto.
      - split; simpl; [now rewrite <- app_assoc | reflexivity]. }
  destruct (open_write_fault w script_path _) as [e|].
  - eexists. split.
    + apply (step_repair_fault w bound q attempt script_path row); auto.
    + split; simpl; [now rewrite <- !app_assoc | reflexivity].
  - eexists. split.
    + apply (step_repaired w bound q attempt script_path row script
               (error_info returncode stdout stderr) info); auto.
    + split; simpl; [now rewrite <- !app_assoc | reflexivity].
Qed.

(** ** The retry loop *)

Lemma for_attempts_run (w : World) (bound : nat) (q : string) (info : dict FileMeta)
    (script_path : string) (range : list nat) :
  forall (vars : LoopVars) (st : State),
  exists d,
    loop_run w bound q range vars
      (fst (for_attempts w bound q info script_path range vars st)) d
    /\ events (snd (for_attempts w bound q info script_path range vars st))
       = (events st ++ d)%list
    /\ dirs (snd (for_attempts w bound q info script_path range vars st)) = dirs st.
Proof.
  induction range as [|attempt rest IH]; intros vars st.
  - exists []. simpl. split; [constructor|]. split; [now rewrite app_nil_r | reflexivity].
  - simpl. unfold bind.
    destruct (attempt_body_step w bound q info script_path attempt (script_content vars) st)
      as [d [Hstep [Hev Hdirs]]].
    destruct (attempt_body w bound q info script_path attempt (script_content vars) st)
      as [[vars'|r|e] st1]; simpl in *.
    + destruct (IH vars' st1) as [d' [Hrun [Hev' Hdirs']]].
      exists (d ++ d')%list. split; [|split].
      * eapply loop_continue; eauto.
      * rewrite Hev', Hev. now rewrite app_assoc.
      * congruence.
    + exists d. split; [now apply loop_return|]. split; assumption.
    + exists d. split; [now apply loop_raise|]. split; assumption.
Qed.

Lemma attempt_step_counts (w : World) (bound : nat) (q : string) (attempt : nat)
    (fl : flow LoopVars) (d : list event) :
  attempt_step w bound q attempt fl d ->
  count_exec d = 1
  /\ count is_generation d = 0
  /\ (log_attempts d = [] \/ log_attempts d = [attempt])
  /\ (count is_repair d = 0
      \/ count is_repair d = 1 /\ (Z.of_nat attempt <? Z.of_nat bound - 1)%Z = true)
  /\ (forall vars, fl = Next vars -> log_attempts d = [attempt]).
Proof.
  intros H; destruct H; cbn; subst; repeat split; auto; try discriminate.
Qed.

(** Executions, logged indices and repairs of a run of the loop: at most
    one execution per index of the range, the logged indices are an initial
    part of the range, and a repair only follows an index below
    [bound - 1]. *)
Lemma loop_run_counts (w : World) (bound : nat) (q : string) (range : list nat)
    (vars : LoopVars) (fl : flow LoopVars) (d : list event) :
  loop_run w bound q range vars fl d ->
  count_exec d <= List.length range
  /\ count is_generation d = 0
  /\ (exists k, log_attempts d = firstn k range /\ k <= count_exec d <= S k)
  /\ count is_repair d <= List.length (repairable bound range)
  /\ (range <> [] -> 1 <= count_exec d).
Proof.
  induction 1 as [vars|attempt rest vars r d Hs|attempt rest vars e d Hs
                 |attempt rest vars vars' fl d d' Hs Hrun IH].
  - cbn. repeat split; auto; [exists 0; cbn; auto | congruence].
  - destruct (attempt_step_counts _ _ _ _ _ _ Hs) as [He [Hg [Hl [Hr _]]]].
    rewrite He, Hg. cbn [List.length]. repeat split; auto; try lia.
    + destruct Hl as [Hl|Hl]; [exists 0|exists 1]; rewrite Hl; cbn; auto.
    + unfold repairable. cbn [filter].
      destruct Hr as [Hr|[Hr Hlt]]; [lia|]. rewrite Hr, Hlt. cbn. lia.
  - destruct (attempt_step_counts _ _ _ _ _ _ Hs) as [He [Hg [Hl [Hr _]]]].
    rewrite He, Hg. cbn [List.length]. repeat split; auto; try lia.
    + destruct Hl as [Hl|Hl]; [exists 0|exists 1]; rewrite Hl; cbn; auto.
    + unfold repairable. cbn [filter].
      destruct Hr as [Hr|[Hr Hlt]]; [lia|]. rewrite Hr, Hlt. cbn. lia.
  - destruct (attempt_step_counts _ _ _ _ _ _ Hs) as [He [Hg [_ [Hr Hn]]]].
    destruct IH as [IHe [IHg [[k [IHl IHk]] [IHr _]]]].
    rewrite count_exec_app, !count_app, log_attempts_app, He, Hg, IHg.
    rewrite (Hn vars' eq_refl). cbn [List.length].
    repeat split; auto; try lia.
    + exists (S k). cbn. rewrite IHl. split; [reflexivity | lia].
    + unfold repairable in *. cbn [filter].
      destruct Hr as [Hr|[Hr Hlt]].
      * rewrite Hr. destruct (Z.of_nat attempt <? _)%Z; cbn; lia.
      * rewrite Hr, Hlt. cbn. lia.
Qed.

Lemma attempt_step_log_in (w : World) (bound : nat) (q : string) (attempt : nat)
    (fl : flow LoopVars) (d : list event) (row : LogRow) :
  attempt_step w bound q attempt fl d ->
  In (ELog row) d ->
  row_attempt row = attempt
  /\ (succeeded (row_returncode row) (row_stdout row) = true ->
      fl = Return (success_response w (row_stdout row)))
  /\ (succeeded (row_returncode row) (row_stdout row) = false ->
      (Z.of_nat attempt <? Z.of_nat bound - 1)%Z = false ->
      fl = Return placeholder).
Proof.
  intros H Hin; destruct H; cbn in Hin;
    repeat (destruct Hin as [Hin|Hin]; try discriminate; try contradiction);
    inversion Hin; subst; repeat split; auto; congruence.
Qed.

(** A logged result that meets the success predicate ends the loop with
    the success answer; a logged result that fails it at an index not below
    [bound - 1] ends the loop with the placeholder answer. *)
Lemma loop_run_logged (w : World) (bound : nat) (q : string) (range : list nat)
    (vars : LoopVars) (fl : flow LoopVars) (d : list event) (row : LogRow) :
  loop_run w bound q range vars fl d ->
  In (ELog row) d ->
  In (row_attempt row) range
  /\ (succeeded (row_returncode row) (row_stdout row) = true ->
      fl = Return (success_response w (row_stdout row)))
  /\ (succeeded (row_returncode row) (row_stdout row) = false ->
      (Z.of_nat (row_attempt row) <? Z.of_nat bound - 1)%Z = false ->
      fl = Return placeholder).
Proof.
  induction 1 as [vars|attempt rest vars r d Hs|attempt rest vars e d Hs
                 |attempt rest vars vars' fl d d' Hs Hrun IH]; intros Hin.
  - contradiction.
  - destruct (attempt_step_log_in _ _ _ _ _ _ _ Hs Hin) as [Ha [H1 H2]].
    subst attempt. repeat split; auto. now left.
  - destruct (attempt_step_log_in _ _ _ _ _ _ _ Hs Hin) as [Ha [H1 H2]].
    subst attempt. repeat split; auto. now left.
  - apply in_app_or in Hin as [Hin|Hin].
    + destruct (attempt_step_log_in _ _ _ _ _ _ _ Hs Hin) as [Ha [H1 H2]].
      subst attempt. split; [now left|]. split; intros; [now apply H1 in H | ].
      now apply H2 in H.
    + destruct (IH Hin) as [Ha [H1 H2]]. repeat split; auto. now right.
Qed.

(** What the loop can return, and when it runs to its end. *)
Lemma loop_run_result (w : World) (bound : nat) (q : string) (range : list nat)
    (vars : LoopVars) (fl : flow LoopVars) (d : list event) :
  loop_run w bound q range vars fl d ->
  (forall r, fl = Return r ->
     r = placeholder \/ exists stdout, r = success_response w stdout)
  /\ (forall v, fl = Next v ->
        Forall (fun a => (Z.of_nat a <? Z.of_nat bound - 1)%Z = true) range).
Proof.
  induction 1 as [vars|attempt rest vars r d Hs|attempt rest vars e d Hs
                 |attempt rest vars vars' fl d d' Hs Hrun IH].
  - split; [discriminate | constructor].
  - split; [|discriminate]. intros r' [= <-].
    inversion Hs; subst; [right; eauto | now left].
  - split; discriminate.
  - destruct IH as [IH1 IH2]. split; [exact IH1|].
    intros v Hv. constructor; [|now apply (IH2 v)].
    inversion Hs; subst; assumption.
Qed.

(** ** The uploads and the question *)

Lemma read_file_content_saved (w : World) (fs : list (string * list byte))
    (file_path : string) (bs : list byte) (n : nat) :
  read_file_content w ((file_path, bs) :: fs) file_path n
  = read_file_content w [(file_path, bs)] file_path n.
Proof.
  unfold read_file_content, read_file_content_try, read_text, read_bytes.
  simpl. rewrite String.eqb_refl. reflexivity.
Qed.

Lemma uploaded_next_question (w : World) (temp_dir key : string) (file : FileStorage)
    (loc : Uploaded) (st : State) :
  question (uploaded_next w temp_dir key file loc st)
  = if is_question_key key then content_of w temp_dir file else question loc.
Proof.
  unfold uploaded_next, content_of, saved. cbn [files].
  rewrite read_file_content_saved.
  destruct (is_question_key key); reflexivity.
Qed.

(** The loop over the uploads raises only what a save raised, and otherwise
    leaves in [question] the content of the last upload that sets it. *)
Lemma process_files_result (w : World) (temp_dir : string) (items : Request) :
  forall (loc : Uploaded) (st : State),
    (forall e, fst (process_files w temp_dir items loc st) = Raise e ->
               exists file_path, save_fault w file_path = Some e)
    /\ (forall up, fst (process_files w temp_dir items loc st) = Next up ->
                   question up = final_question w temp_dir items (question loc)).
Proof.
  induction items as [|[key file] rest IH]; intros loc st.
  - simpl. split; [discriminate|]. now intros up [= <-].
  - rewrite process_files_cons. cbn [final_question]. unfold sets_question.
    cbn [fst snd].
    destruct (PyStr.truthy (filename file)); [|apply IH].
    cbv zeta. destruct (save_fault w _) as [e|] eqn:Hsave.
    + split; [|discriminate]. intros e' [= <-]. eauto.
    + cbn [andb]. rewrite <- uploaded_next_question with (loc := loc) (st := st).
      apply IH.
Qed.

(** ** The handler *)

Lemma after_loop_eq (temp_dir : string) (vars : LoopVars) (st : State) :
  after_loop temp_dir vars st =
  match last_output vars with
  | None => (Raise unbound_stdout, st)
  | Some (stdout, stderr) =>
      (Return (failure_payload stdout stderr (script_content vars)), st)
  end.
Proof.
  unfold after_loop. destruct (last_output vars) as [[stdout stderr]|]; reflexivity.
Qed.

Lemma seq_repairable_nil (bound : nat) :
  Forall (fun a => (Z.of_nat a <? Z.of_nat bound - 1)%Z = true) (seq 0 bound) ->
  bound = 0.
Proof.
  intros H. destruct bound as [|n]; [reflexivity|].
  rewrite Forall_forall in H.
  specialize (H n). rewrite in_seq in H.
  assert (Hn : (Z.of_nat n <? Z.of_nat (S n) - 1)%Z = true) by (apply H; lia).
  apply Z.ltb_lt in Hn. lia.
Qed.

Lemma generate_and_run_eq (w : World) (bound : nat) (temp_dir : string)
    (up : Uploaded) (st : State) :
  generate_and_run w bound temp_dir up st =
  let p := GenerationPrompt (question up) (describe_files (file_contents up) "")
                            (file_info up) in
  let script := strip_fences (generated_text w p) in
  let script_path := os_path_join temp_dir "analysis_script.py" in
  match open_write_fault w script_path script with
  | Some e => (Raise e, push st [ELLM p 5000])
  | None =>
      match for_attempts w bound (question up) (file_info up) script_path
              (seq 0 bound) (mkVars script None)
              (written (push st [ELLM p 5000]) script_path script) with
      | (Next vars, st') => after_loop temp_dir vars st'
      | (Return r, st') => (Return r, st')
      | (Raise e, st') => (Raise e, st')
      end
  end.
Proof.
  unfold generate_and_run. unfold bind at 1.
  rewrite generate_analysis_script_eq. cbv zeta.
  unfold bind at 1. rewrite write_text_eq. unfold strip_fences.
  destruct (open_write_fault w _ _); [reflexivity|].
  unfold bind. reflexivity.
Qed.

Lemma generate_and_run_trace (w : World) (bound : nat) (temp_dir : string)
    (up : Uploaded) (st : State) (req : Request) (d0 : list event) :
  mkdtemp w = Ok temp_dir -> saves_only d0 ->
  question up = final_question w temp_dir req "" ->
  question up <> "" ->
  exists d,
    handler_run w bound req (fst (generate_and_run w bound temp_dir up st))
                (EMkdtemp temp_dir :: d0 ++ d)
    /\ events (snd (generate_and_run w bound temp_dir up st)) = (events st ++ d)%list
    /\ dirs (snd (generate_and_run w bound temp_dir up st)) = dirs st.
Proof.
  intros Htmp Hd0 Hq Hne.
  rewrite generate_and_run_eq. cbv zeta.
  set (p := GenerationPrompt (question up) _ _).
  set (script := strip_fences (generated_text w p)).
  set (script_path := os_path_join temp_dir "analysis_script.py").
  destruct (open_write_fault w script_path script) as [e|] eqn:Hw.
  { exists [ELLM p 5000]. split; [|split; reflexivity].
    subst p. rewrite Hq in *. eapply run_write_fault; eauto. }
  destruct (for_attempts_run w bound (question up) (file_info up) script_path
              (seq 0 bound) (mkVars script None)
              (written (push st [ELLM p 5000]) script_path script))
    as [dl [Hrun [Hev Hdirs]]].
  destruct (for_attempts w bound (question up) (file_info up) script_path
              (seq 0 bound) (mkVars script None)
              (written (push st [ELLM p 5000]) script_path script))
    as [[vars|r|e] st']; cbn [fst snd] in *.
  - destruct (loop_run_result _ _ _ _ _ _ _ Hrun) as [_ Hnext].
    pose proof (seq_repairable_nil bound (Hnext vars eq_refl)) as Hb. subst bound.
    inversion Hrun; subst. rewrite after_loop_eq. cbn [last_output fst snd].
    exists [ELLM p 5000; EWrite script_path script]. split; [|split].
    + subst p. rewrite Hq in *. eapply run_unbound; eauto.
    + rewrite Hev. cbn. now rewrite <- !app_assoc, app_nil_r.
    + rewrite Hdirs. reflexivity.
  - exists ([ELLM p 5000; EWrite script_path script] ++ dl)%list. split; [|split].
    + subst p. rewrite Hq in *. eapply run_loop_return; eauto.
    + rewrite Hev. cbn. now rewrite <- !app_assoc.
    + rewrite Hdirs. reflexivity.
  - exists ([ELLM p 5000; EWrite script_path script] ++ dl)%list. split; [|split].
    + subst p. rewrite Hq in *. eapply run_loop_raise; eauto.
    + rewrite Hev. cbn. now rewrite <- !app_assoc.
    + rewrite Hdirs. reflexivity.
Qed.

Lemma analyze_data_try_eq (w : World) (bound : nat) (req : Request) (st : State) :
  analyze_data_try w bound req st =
  match mkdtemp w with
  | Raised e => (Raise e, st)
  | Ok temp_dir =>
      let st0 := mkState (temp_dir :: dirs st) (files st)
                         (events st ++ [EMkdtemp temp_dir]) in
      match process_files w temp_dir req (mkUploaded [] [] "") st0 with
      | (Next up, st1) =>
          if PyStr.truthy (question up)
          then generate_and_run w bound temp_dir up st1
          else (Return input_error, st1)
      | (Return r, st1) => (Return r, st1)
      | (Raise e, st1) => (Raise e, st1)
      end
  end.
Proof.
  unfold analyze_data_try, tempfile_mkdtemp.
  destruct (mkdtemp w) as [temp_dir|e]; [|reflexivity].
  unfold bind at 1. cbv zeta.
  unfold bind at 1.
  destruct (process_files w temp_dir req _ _) as [[up|r|e] st1]; try reflexivity.
  unfold bind. destruct (PyStr.truthy (question up)); reflexivity.
Qed.

Lemma truthy_false (s : string) : PyStr.truthy s = false <-> s = "".
Proof. destruct s; simpl; split; congruence. Qed.

Lemma truthy_true (s : string) : PyStr.truthy s = true <-> s <> "".
Proof. destruct s; simpl; split; congruence. Qed.

(** Every run of the handler is one of the runs [handler_run] lists. *)
Lemma analyze_data_with_run (w : World) (bound : nat) (req : Request) (st : State) :
  exists fl d,
    handler_run w bound req fl d
    /\ fst (analyze_data_with w bound req st) = answer w fl
    /\ events (snd (analyze_data_with w bound req st)) = (events st ++ d)%list
    /\ dirs (snd (analyze_data_with w bound req st)) = dirs_after w st.
Proof.
  unfold analyze_data_with, dirs_after. rewrite analyze_data_try_eq.
  destruct (mkdtemp w) as [temp_dir|e] eqn:Htmp.
  2:{ exists (Raise e), []. cbn. rewrite app_nil_r. repeat split.
      now apply run_no_tmp. }
  cbv zeta.
  set (st0 := mkState (temp_dir :: dirs st) (files st) (events st ++ [EMkdtemp temp_dir])).
  destruct (process_files_trace w temp_dir req (mkUploaded [] [] "") st0)
    as [[d0 [Hev0 Hs0]] [Hdirs0 Hret0]].
  destruct (process_files_result w temp_dir req (mkUploaded [] [] "") st0)
    as [Hraise Hnext].
  destruct (process_files w temp_dir req (mkUploaded [] [] "") st0)
    as [[up|r|e] st1]; cbn [fst snd] in *.
  - specialize (Hnext up eq_refl). cbn [question] in Hnext.
    destruct (PyStr.truthy (question up)) eqn:Hq.
    + apply truthy_true in Hq.
      destruct (generate_and_run_trace w bound temp_dir up st1 req d0 Htmp Hs0 Hnext Hq)
        as [d [Hrun [Hev Hdirs]]].
      exists (fst (generate_and_run w bound temp_dir up st1)), (EMkdtemp temp_dir :: d0 ++ d)%list.
      destruct (generate_and_run w bound temp_dir up st1) as [[u|r|e] st2];
        cbn [fst snd] in *.
      * inversion Hrun.
      * repeat split; auto.
        -- rewrite Hev, Hev0. subst st0. cbn. now rewrite <- !app_assoc.
        -- rewrite Hdirs, Hdirs0. reflexivity.
      * repeat split; auto.
        -- rewrite Hev, Hev0. subst st0. cbn. now rewrite <- !app_assoc.
        -- rewrite Hdirs, Hdirs0. reflexivity.
    + apply truthy_false in Hq.
      exists (Return input_error), (EMkdtemp temp_dir :: d0). repeat split; auto.
      * apply run_no_question; auto. congruence.
      * cbn [snd]. rewrite Hev0. subst st0. cbn. now rewrite <- app_assoc.
  - now elim (Hret0 r).
  - destruct (Hraise e eq_refl) as [file_path Hsave].
    exists (Raise e), (EMkdtemp temp_dir :: d0). repeat split; auto.
    + eapply run_save_fault; eauto.
    + cbn [snd]. rewrite Hev0. subst st0. cbn. now rewrite <- app_assoc.
Qed.

Lemma saves_only_no_log (d : list event) (row : LogRow) :
  saves_only d -> ~ In (ELog row) d.
Proof.
  unfold saves_only. rewrite forallb_forall. intros H Hin.
  specialize (H _ Hin). discriminate.
Qed.

(** The log rows of a run of the handler are those of its retry loop. *)
Lemma handler_run_logged (w : World) (bound : nat) (req : Request)
    (fl : flow unit) (d : list event) (row : LogRow) :
  handler_run w bound req fl d ->
  In (ELog row) d ->
  row_attempt row < bound
  /\ (succeeded (row_returncode row) (row_stdout row) = true ->
      fl = Return (success_response w (row_stdout row)))
  /\ (succeeded (row_returncode row) (row_stdout row) = false ->
      (Z.of_nat (row_attempt row) <? Z.of_nat bound - 1)%Z = false ->
      fl = Return placeholder).
Proof.
  assert (Hpre : forall tmp d0 d1, saves_only d0 ->
            In (ELog row) (EMkdtemp tmp :: d0 ++ d1)%list -> In (ELog row) d1).
  { intros tmp d0 d1 Hs [Hin|Hin]; [discriminate|].
    apply in_app_or in Hin as [Hin|Hin]; [|exact Hin].
    now elim (saves_only_no_log d0 row Hs). }
  intros Hrun Hin.
  destruct Hrun as [e Ht|tmp d0 fp e Ht Hs Hf|tmp d0 Ht Hs Hq
                   |tmp d0 desc info script e Ht Hs Hq Hw
                   |tmp d0 desc info script vars r dl Ht Hs Hq Hl
                   |tmp d0 desc info script vars e dl Ht Hs Hq Hl
                   |tmp d0 desc info script Ht Hs Hq Hb].
  - contradiction.
  - destruct Hin as [Hin|Hin]; [discriminate | now elim (saves_only_no_log d0 row Hs)].
  - destruct Hin as [Hin|Hin]; [discriminate | now elim (saves_only_no_log d0 row Hs)].
  - apply Hpre in Hin; [|exact Hs]. destruct Hin as [Hin|[]]. discriminate.
  - apply Hpre in Hin; [|exact Hs].
    destruct Hin as [Hin|[Hin|Hin]]; try discriminate.
    destruct (loop_run_logged _ _ _ _ _ _ _ row Hl Hin) as [Ha [H1 H2]].
    apply in_seq in Ha. split; [lia|]. split; intros.
    + apply H1 in H. now inversion H.
    + apply H2 in H; auto. now inversion H.
  - apply Hpre in Hin; [|exact Hs].
    destruct Hin as [Hin|[Hin|Hin]]; try discriminate.
    destruct (loop_run_logged _ _ _ _ _ _ _ row Hl Hin) as [Ha [H1 H2]].
    apply in_seq in Ha. split; [lia|]. split; intros.
    + apply H1 in H. discriminate.
    + apply H2 in H; auto. discriminate.
  - apply Hpre in Hin; [|exact Hs].
    destruct Hin as [Hin|[Hin|[]]]; discriminate.
Qed.

Lemma trace_of_run (w : World) (req : Request) (st : State) :
  exists fl,
    handler_run w max_attempts req fl (trace_of w req st)
    /\ response_of w req st = answer w fl
    /\ dirs (snd (analyze_data w req st)) = dirs_after w st.
Proof.
  destruct (analyze_data_with_run w max_attempts req st) as [fl [d [Hrun [Ha [Hev Hd]]]]].
  exists fl. unfold trace_of, response_of, analyze_data.
  rewrite (new_events_app _ _ _ Hev). auto.
Qed.

(** * The specification, statement by statement *)


Ltac find_event := vm_compute; repeat (first [left; reflexivity | right]).


(** C2 (the code answers otherwise).  When the result logged for the last
    permitted attempt fails the success predicate, the handler answers with
    the list [[1, 'a', 23, 'bc']] and status 200; the failure payload
    [{error, last_stdout, last_stderr, last_script}] with status 500 is
    never the answer, for any request. *)
Theorem C2_last_failure_answers_placeholder (w : World) (req : Request) (st : State) :
  (forall row : LogRow,
      In (ELog row) (trace_of w req st) ->
      succeeded (row_returncode row) (row_stdout row) = false ->
      response_of w req st
      = Some (mkResponse (JArr [JInt 1; JStr "a"; JInt 23; JStr "bc"]) 200))
  /\ (forall stdout stderr script : string,
         response_of w req st <> Some (failure_payload stdout stderr script)).
Proof.
  destruct (trace_of_run w req st) as [fl [Hrun [Hans _]]]. split.
  - intros row Hin Hfail.
    destruct (handler_run_logged _ _ _ _ _ row Hrun Hin) as [Hlt [_ H2]].
    rewrite Hans, H2; auto.
    unfold max_attempts in *. apply Z.ltb_ge. lia.
  - intros stdout stderr script. rewrite Hans.
    destruct Hrun as [e Ht|tmp d0 fp e Ht Hs Hf|tmp d0 Ht Hs Hq
                     |tmp d0 desc info scr e Ht Hs Hq Hw
                     |tmp d0 desc info scr vars r dl Ht Hs Hq Hl
                     |tmp d0 desc info scr vars e dl Ht Hs Hq Hl
                     |tmp d0 desc info scr Ht Hs Hq Hb]; cbn; try discriminate.
    destruct (loop_run_result _ _ _ _ _ _ _ Hl) as [Hr _].
    destruct (Hr r eq_refl) as [->|[out ->]]; [discriminate|].
    unfold success_response. destruct (json_loads w _); discriminate.
Qed.

Lemma C2_last_failure_answers_placeholder_witness :
  response_of Sample.failing Sample.ask initial
  = Some (mkResponse (JArr [JInt 1; JStr "a"; JInt 23; JStr "bc"]) 200).
Proof.
  apply (proj1 (C2_last_failure_answers_placeholder Sample.failing Sample.ask initial)
           (mkRow "How many rows?" "2025-08-01 10:00:00" 0 1 "partial" "boom")).
  - find_event.
  - reflexivity.
Defined.

Lemma repairable_seq (bound s n : nat) :
  List.length (repairable bound (seq s n)) <= (bound - 1) - s.
Proof.
  revert s. induction n as [|n IH]; intros s; cbn; [lia|].
  destruct (Z.of_nat s <? Z.of_nat bound - 1)%Z eqn:Hlt; cbn.
  - apply Z.ltb_lt in Hlt. specialize (IH (S s)). unfold repairable in IH. lia.
  - specialize (IH (S s)). unfold repairable in IH. lia.
Qed.

Lemma firstn_seq_le (k : nat) :
  forall s n, k <= n -> firstn k (seq s n) = seq s k.
Proof.
  induction k as [|k IH]; intros s n Hk; [reflexivity|].
  destruct n as [|n]; [lia|]. cbn. f_equal. apply IH. lia.
Qed.

(** Executions, logged indices, model calls and script writes of a run of
    the handler. *)
Lemma handler_run_counts (w : World) (bound : nat) (req : Request)
    (fl : flow unit) (d : list event) :
  handler_run w bound req fl d ->
  count_exec d <= bound
  /\ (exists k, log_attempts d = seq 0 k /\ k <= count_exec d <= S k)
  /\ count is_repair d <= bound - 1
  /\ count is_generation d <= 1
  /\ (1 <= bound -> 1 <= count is_write d -> 1 <= count_exec d).
Proof.
  assert (Hloop : forall q vars fl' dl,
            loop_run w bound q (seq 0 bound) vars fl' dl ->
            count_exec dl <= bound
            /\ (exists k, log_attempts dl = seq 0 k /\ k <= count_exec dl <= S k)
            /\ count is_repair dl <= bound - 1
            /\ count is_generation dl = 0
            /\ (1 <= bound -> 1 <= count_exec dl)).
  { intros q vars fl' dl Hl.
    destruct (loop_run_counts _ _ _ _ _ _ _ Hl) as [He [Hg [[k [Hk Hke]] [Hr Hne]]]].
    rewrite length_seq in He. repeat split; auto.
    - exists k. split; [|exact Hke]. rewrite Hk. apply firstn_seq_le. lia.
    - pose proof (repairable_seq bound 0 bound). lia.
    - intros Hb. apply Hne. destruct bound; [lia | discriminate]. }
  assert (Hnone : forall tmp d0, saves_only d0 ->
            count_exec (EMkdtemp tmp :: d0) = 0
            /\ log_attempts (EMkdtemp tmp :: d0) = []
            /\ count is_repair (EMkdtemp tmp :: d0) = 0
            /\ count is_generation (EMkdtemp tmp :: d0) = 0
            /\ count is_write (EMkdtemp tmp :: d0) = 0).
  { intros tmp d0 Hs.
    change (EMkdtemp tmp :: d0) with ([EMkdtemp tmp] ++ d0)%list.
    rewrite count_exec_app, !count_app, log_attempts_app.
    rewrite (saves_only_exec d0 Hs), (saves_only_log d0 Hs).
    rewrite !(saves_only_count _ d0) by
      (auto; intros [] He; simpl in *; congruence).
    repeat split; reflexivity. }
  intros Hrun.
  destruct Hrun as [e Ht|tmp d0 fp e Ht Hs Hf|tmp d0 Ht Hs Hq
                   |tmp d0 desc info script e Ht Hs Hq Hw
                   |tmp d0 desc info script vars r dl Ht Hs Hq Hl
                   |tmp d0 desc info script vars e dl Ht Hs Hq Hl
                   |tmp d0 desc info script Ht Hs Hq Hb].
  - cbn. repeat split; try lia. exists 0. cbn. split; [reflexivity | lia].
  - destruct (Hnone tmp d0 Hs) as [He [Hl [Hr [Hg Hw]]]].
    rewrite He, Hl, Hr, Hg, Hw. repeat split; try lia.
    exists 0. cbn. split; [reflexivity | lia].
  - destruct (Hnone tmp d0 Hs) as [He [Hl [Hr [Hg Hw]]]].
    rewrite He, Hl, Hr, Hg, Hw. repeat split; try lia.
    exists 0. cbn. split; [reflexivity | lia].
  - destruct (Hnone tmp d0 Hs) as [He [Hl [Hr [Hg Hw']]]].
    rewrite app_comm_cons, ?count_exec_app, ?count_app, ?log_attempts_app.
    rewrite He, Hl, Hr, Hg, Hw'. cbn. repeat split; try lia.
    exists 0. cbn. split; [reflexivity | lia].
  - destruct (Hnone tmp d0 Hs) as [He [Hl' [Hr [Hg Hw']]]].
    destruct (Hloop _ _ _ _ Hl) as [Le [[k [Lk Lke]] [Lr [Lg Lne]]]].
    rewrite app_comm_cons, ?count_exec_app, ?count_app, ?log_attempts_app.
    rewrite He, Hl', Hr, Hg, Hw', Lg. cbn. repeat split; try lia.
    exists k. split; [exact Lk | lia].
  - destruct (Hnone tmp d0 Hs) as [He [Hl' [Hr [Hg Hw']]]].
    destruct (Hloop _ _ _ _ Hl) as [Le [[k [Lk Lke]] [Lr [Lg Lne]]]].
    rewrite app_comm_cons, ?count_exec_app, ?count_app, ?log_attempts_app.
    rewrite He, Hl', Hr, Hg, Hw', Lg. cbn. repeat split; try lia.
    exists k. split; [exact Lk | lia].
  - destruct (Hnone tmp d0 Hs) as [He [Hl' [Hr [Hg Hw']]]].
    rewrite app_comm_cons, ?count_exec_app, ?count_app, ?log_attempts_app.
    rewrite He, Hl', Hr, Hg, Hw'. cbn. repeat split; try lia.
    exists 0. cbn. split; [reflexivity | lia].
Qed.

(** C3 (amended).  For every attempt bound, a run of the handler executes
    the script at most [bound] times, logs the attempt indices 0, 1, 2, ...
    in steps of one, one row per execution but possibly the last, and calls
    the repair function at most [bound - 1] times.  With the bound of the
    source, 1, the repair function is never called and there is at most one
    execution; a request that reaches script generation and whose script
    file is written performs exactly one. *)
Theorem C3_attempts_bounded (w : World) (req : Request) (st : State) :
  (forall bound : nat,
      let d := new_events st (snd (analyze_data_with w bound req st)) in
      count_exec d <= bound
      /\ (exists k, log_attempts d = seq 0 k /\ k <= count_exec d <= S k)
      /\ count is_repair d <= bound - 1)
  /\ (let d := trace_of w req st in
      count is_repair d = 0
      /\ count_exec d <= 1
      /\ (1 <= count is_generation d -> 1 <= count is_write d -> count_exec d = 1)).
Proof.
  split.
  - intros bound d.
    destruct (analyze_data_with_run w bound req st) as [fl [d' [Hrun [_ [Hev _]]]]].
    subst d. rewrite (new_events_app _ _ _ Hev).
    destruct (handler_run_counts _ _ _ _ _ Hrun) as [He [Hk [Hr _]]]. auto.
  - destruct (trace_of_run w req st) as [fl [Hrun _]].
    destruct (handler_run_counts _ _ _ _ _ Hrun) as [He [_ [Hr [_ Hw]]]].
    unfold max_attempts in *. cbv zeta. repeat split; lia.
Qed.

Lemma C3_attempts_bounded_witness :
  count_exec (trace_of Sample.failing Sample.ask initial) = 1.
Proof.
  destruct (proj2 (C3_attempts_bounded Sample.failing Sample.ask initial))
    as [_ [_ H]].
  apply H; vm_compute; lia.
Defined.

(** C3 as stated fails: this request reaches script generation, writing the
    script raises, and no execution takes place. *)
Lemma C3_counterexample :
  count is_generation (trace_of Sample.unwritable Sample.ask initial) = 1
  /\ count_exec (trace_of Sample.unwritable Sample.ask initial) <> 1.
Proof. vm_compute. split; [reflexivity | discriminate]. Qed.




Lemma final_question_no_field (w : World) (temp_dir : string) (items : Request) :
  forall q, has_question_field items = false ->
            final_question w temp_dir items q = q.
Proof.
  induction items as [|[key file] rest IH]; intros q H; [reflexivity|].
  unfold has_question_field in H. cbn in H. apply orb_false_iff in H as [Hk Hrest].
  cbn. unfold sets_question. cbn. rewrite Hk, andb_false_r. now apply IH.
Qed.

(** C5 (amended).  A request in which no form field is named
    [questions.txt] or has a name that starts with [question] causes no
    language-model call and no execution.  The handler answers
    [{error: No questions.txt file found}] with status 400, unless
    [mkdtemp] or the saving of an upload raises: then it answers with the
    internal-error body and status 500. *)
Theorem C5_missing_question (w : World) (req : Request) (st : State) :
  has_question_field req = false ->
  count is_llm (trace_of w req st) = 0
  /\ count_exec (trace_of w req st) = 0
  /\ (response_of w req st
      = Some (mkResponse (JObj [("error", JStr "No questions.txt file found")]) 400)
      \/ exists e,
          response_of w req st = Some (internal_error w e)
          /\ (mkdtemp w = Raised e \/ exists file_path, save_fault w file_path = Some e))
  /\ ((exists temp_dir, mkdtemp w = Ok temp_dir) ->
      (forall file_path, save_fault w file_path = None) ->
      response_of w req st
      = Some (mkResponse (JObj [("error", JStr "No questions.txt file found")]) 400)).
Proof.
  intros Hnone.
  destruct (trace_of_run w req st) as [fl [Hrun [Hans _]]]. rewrite Hans.
  assert (Hquiet : forall tmp d0, saves_only d0 ->
            count is_llm (EMkdtemp tmp :: d0) = 0
            /\ count_exec (EMkdtemp tmp :: d0) = 0).
  { intros tmp d0 Hs.
    change (EMkdtemp tmp :: d0) with ([EMkdtemp tmp] ++ d0)%list.
    rewrite count_exec_app, count_app, (saves_only_exec d0 Hs).
    rewrite (saves_only_count is_llm d0) by
      (auto; intros [] He; simpl in *; congruence).
    split; reflexivity. }
  destruct Hrun as [e Ht|tmp d0 fp e Ht Hs Hf|tmp d0 Ht Hs Hq
                   |tmp d0 desc info script e Ht Hs Hq Hw
                   |tmp d0 desc info script vars r dl Ht Hs Hq Hl
                   |tmp d0 desc info script vars e dl Ht Hs Hq Hl
                   |tmp d0 desc info script Ht Hs Hq Hb];
    try (rewrite final_question_no_field in Hq by exact Hnone; congruence).
  - cbn. repeat split; auto.
    + right. exists e. auto.
    + intros [tmp Htmp]. congruence.
  - destruct (Hquiet tmp d0 Hs) as [Hl He]. rewrite Hl, He. cbn. repeat split; auto.
    + right. exists e. split; [reflexivity|]. right. eauto.
    + intros _ Hsave. rewrite Hsave in Hf. discriminate.
  - destruct (Hquiet tmp d0 Hs) as [Hl He]. rewrite Hl, He. cbn. repeat split; auto.
Qed.

Lemma C5_missing_question_witness :
  response_of Sample.hello Sample.data_only initial
  = Some (mkResponse (JObj [("error", JStr "No questions.txt file found")]) 400).
Proof.
  apply (C5_missing_question Sample.hello Sample.data_only initial).
  - reflexivity.
  - exists Sample.tmp. reflexivity.
  - reflexivity.
Defined.

(** C5 as stated fails: no field of this request has a question name, the
    name of its file is sanitised to nothing, the save to the directory
    path raises, and the answer is the internal-error body with status
    500. *)
Lemma C5_counterexample :
  has_question_field Sample.odd_name = false
  /\ response_of Sample.posix Sample.odd_name initial
     = Some (internal_error Sample.posix "[Errno 21] Is a directory")
  /\ response_of Sample.posix Sample.odd_name initial <> Some input_error.
Proof. vm_compute. repeat split. discriminate. Qed.

(** C6 (the code does otherwise).  The directory made by [mkdtemp] still
    exists when the handler returns, whatever the request and however the
    run ends: the clean-up statements stand after a [return] and are never
    executed. *)
Theorem C6_workspace_remains (w : World) (req : Request) (st : State)
    (temp_dir : string) :
  mkdtemp w = Ok temp_dir ->
  dirs (snd (analyze_data w req st)) = temp_dir :: dirs st
  /\ In temp_dir (dirs (snd (analyze_data w req st))).
Proof.
  intros Htmp.
  destruct (trace_of_run w req st) as [fl [_ [_ Hdirs]]].
  rewrite Hdirs. unfold dirs_after. rewrite Htmp. split; [reflexivity | now left].
Qed.

Lemma C6_workspace_remains_witness :
  In Sample.tmp (dirs (snd (analyze_data Sample.hello Sample.ask initial)))
  /\ In Sample.tmp (dirs (snd (analyze_data Sample.failing Sample.ask initial)))
  /\ In Sample.tmp (dirs (snd (analyze_data Sample.unwritable Sample.ask initial))).
Proof.
  repeat split.
  - apply (C6_workspace_remains Sample.hello Sample.ask initial Sample.tmp). reflexivity.
  - apply (C6_workspace_remains Sample.failing Sample.ask initial Sample.tmp). reflexivity.
  - apply (C6_workspace_remains Sample.unwritable Sample.ask initial Sample.tmp). reflexivity.
Defined.



(** C8.  Every run of the handler ends with an answer.  When a statement
    of its [try] block raises, the answer is
    [{error: Internal server error: ..., traceback: ...}] with status
    500. *)
Theorem C8_internal_error_answer (w : World) (req : Request) (st : State) :
  (exists r, response_of w req st = Some r)
  /\ (forall e, fst (analyze_data_try w max_attempts req st) = Raise e ->
        response_of w req st
        = Some (mkResponse
                  (JObj [("error", JStr ("Internal server error: " ++ e));
                         ("traceback", JStr (format_exc w e))]) 500)).
Proof.
  split.
  - destruct (trace_of_run w req st) as [fl [Hrun [Hans _]]]. rewrite Hans.
    destruct Hrun; cbn; eauto.
  - intros e H. unfold response_of, analyze_data, analyze_data_with.
    destruct (analyze_data_try w max_attempts req st) as [fl st'].
    cbn in H. subst fl. reflexivity.
Qed.

Lemma C8_internal_error_answer_witness :
  response_of Sample.unwritable Sample.ask initial
  = Some (mkResponse
            (JObj [("error", JStr "Internal server error: [Errno 28] No space left on device");
                   ("traceback",
                    JStr "Traceback (most recent call last): [Errno 28] No space left on device")])
            500).
Proof.
  apply (proj2 (C8_internal_error_answer Sample.unwritable Sample.ask initial)).
  reflexivity.
Defined.

(** ** The question text *)

Lemma final_question_empty (w : World) (temp_dir : string) (items : Request) :
  forall q,
    final_question w temp_dir items q = "" ->
    (q = "" /\ existsb sets_question items = false)
    \/ exists kf, In kf items /\ sets_question kf = true
                  /\ content_of w temp_dir (snd kf) = "".
Proof.
  induction items as [|kf rest IH]; intros q H.
  - left. split; [exact H | reflexivity].
  - cbn [final_question] in H. apply IH in H as [[Hq Hrest]|[kf' [Hin [Hs Hc]]]].
    + destruct (sets_question kf) eqn:Hs.
      * right. exists kf. split; [now left | auto].
      * left. cbn. rewrite Hs. auto.
    + right. exists kf'. split; [now right | auto].
Qed.

Lemma content_of_empty (w : World) (temp_dir : string) (file : FileStorage) :
  content_of w temp_dir file = "" ->
  let file_path := os_path_join temp_dir (secure_filename w (filename file)) in
  read_file_content_try w [(file_path, data file)] file_path 10 = Ok "".
Proof.
  unfold content_of, read_file_content. cbv zeta.
  destruct (read_file_content_try w _ _ 10) as [s|e]; [now intros -> | discriminate].
Qed.

(** A run either stops before script generation, with the input error or
    with what [mkdtemp] or a save raised, or passes it once with a
    non-empty question. *)
Lemma handler_run_generation (w : World) (bound : nat) (req : Request)
    (fl : flow unit) (d : list event) :
  handler_run w bound req fl d ->
  (count is_generation d = 0
   /\ ((exists temp_dir, mkdtemp w = Ok temp_dir
                         /\ final_question w temp_dir req "" = ""
                         /\ fl = Return input_error)
       \/ exists e, fl = Raise e
                    /\ (mkdtemp w = Raised e
                        \/ exists file_path, save_fault w file_path = Some e)))
  \/ (count is_generation d = 1
      /\ (exists temp_dir, mkdtemp w = Ok temp_dir
                           /\ final_question w temp_dir req "" <> "")
      /\ answer w fl <> Some input_error).
Proof.
  assert (Hnone : forall tmp d0, saves_only d0 ->
            count is_generation (EMkdtemp tmp :: d0) = 0).
  { intros tmp d0 Hs.
    change (EMkdtemp tmp :: d0) with ([EMkdtemp tmp] ++ d0)%list.
    rewrite count_app.
    rewrite (saves_only_count is_generation d0) by
      (auto; intros [] He; simpl in *; congruence).
    reflexivity. }
  intros Hrun.
  destruct Hrun as [e Ht|tmp d0 fp e Ht Hs Hf|tmp d0 Ht Hs Hq
                   |tmp d0 desc info script e Ht Hs Hq Hw
                   |tmp d0 desc info script vars r dl Ht Hs Hq Hl
                   |tmp d0 desc info script vars e dl Ht Hs Hq Hl
                   |tmp d0 desc info script Ht Hs Hq Hb].
  - left. split; [reflexivity|]. right. eauto.
  - left. split; [now apply Hnone|]. right. eauto.
  - left. split; [now apply Hnone|]. left. eauto.
  - right. rewrite app_comm_cons, count_app, (Hnone tmp d0 Hs).
    split; [reflexivity|]. split; [eauto | discriminate].
  - right. destruct (loop_run_counts _ _ _ _ _ _ _ Hl) as [_ [Hg _]].
    rewrite app_comm_cons, !count_app, (Hnone tmp d0 Hs), Hg.
    split; [reflexivity|]. split; [eauto|].
    destruct (loop_run_result _ _ _ _ _ _ _ Hl) as [Hr _].
    destruct (Hr r eq_refl) as [->|[out ->]]; cbn; [discriminate|].
    unfold success_response. destruct (json_loads w _); discriminate.
  - right. destruct (loop_run_counts _ _ _ _ _ _ _ Hl) as [_ [Hg _]].
    rewrite app_comm_cons, !count_app, (Hnone tmp d0 Hs), Hg.
    split; [reflexivity|]. split; [eauto | discriminate].
  - right. rewrite app_comm_cons, count_app, (Hnone tmp d0 Hs).
    split; [reflexivity|]. split; [eauto | discriminate].
Qed.

(** C9 (amended).  When the file of an upload that sets the question
    cannot be read, the question becomes [Error reading file: ...]; when
    that is the question after all uploads, and neither [mkdtemp] nor a
    save raises, the handler goes on to script generation and does not
    answer with the input error.  The input error is answered only when no
    form field has both a question name and an upload with a file name, or
    the file of such an upload reads as the empty string. *)
Theorem C9_question_read_failure (w : World) :
  (forall (temp_dir key : string) (file : FileStorage) (loc : Uploaded)
          (st : State) (e : exn),
      let file_path := os_path_join temp_dir (secure_filename w (filename file)) in
      is_question_key key = true ->
      read_file_content_try w [(file_path, data file)] file_path 10 = Raised e ->
      question (uploaded_next w temp_dir key file loc st) = "Error reading file: " ++ e)
  /\ (forall (req : Request) (st : State) (temp_dir : string) (e : exn),
         mkdtemp w = Ok temp_dir ->
         (forall file_path, save_fault w file_path = None) ->
         final_question w temp_dir req "" = "Error reading file: " ++ e ->
         count is_generation (trace_of w req st) = 1
         /\ response_of w req st <> Some input_error)
  /\ (forall (req : Request) (st : State),
         response_of w req st = Some input_error ->
         exists temp_dir,
           mkdtemp w = Ok temp_dir
           /\ (existsb sets_question req = false
               \/ exists key file,
                   In (key, file) req
                   /\ is_question_key key = true
                   /\ filename file <> ""
                   /\ let file_path :=
                        os_path_join temp_dir (secure_filename w (filename file)) in
                      read_file_content_try w [(file_path, data file)] file_path 10
                      = Ok "")).
Proof.
  split; [|split].
  - intros temp_dir key file loc st e file_path Hkey Hread.
    rewrite uploaded_next_question, Hkey. unfold content_of, read_file_content.
    fold file_path. now rewrite Hread.
  - intros req st temp_dir e Htmp Hsave Hq.
    destruct (trace_of_run w req st) as [fl [Hrun [Hans _]]]. rewrite Hans.
    destruct (handler_run_generation _ _ _ _ _ Hrun)
      as [[_ [[tmp [Ht [Hq0 _]]]|[e' [_ [Ht|[fp Hf]]]]]]|[Hg [_ Hne]]].
    + rewrite Htmp in Ht. injection Ht as <-. rewrite Hq in Hq0. discriminate.
    + rewrite Htmp in Ht. discriminate.
    + rewrite Hsave in Hf. discriminate.
    + auto.
  - intros req st Hresp.
    destruct (trace_of_run w req st) as [fl [Hrun [Hans _]]]. rewrite Hans in Hresp.
    destruct (handler_run_generation _ _ _ _ _ Hrun)
      as [[_ [[tmp [Ht [Hq0 _]]]|[e' [-> _]]]]|[_ [_ Hne]]].
    + exists tmp. split; [exact Ht|].
      apply final_question_empty in Hq0 as [[_ Hno]|[[key file] [Hin [Hs Hc]]]].
      * now left.
      * right. exists key, file. unfold sets_question in Hs. cbn [fst snd] in *.
        apply andb_true_iff in Hs as [Hname Hkey].
        repeat split; auto.
        -- now apply truthy_true.
        -- now apply content_of_empty.
    + discriminate.
    + contradiction.
Qed.

Lemma C9_question_read_failure_witness :
  (count is_generation (trace_of Sample.garbled Sample.ask initial) = 1
   /\ response_of Sample.garbled Sample.ask initial <> Some input_error)
  /\ exists temp_dir, mkdtemp Sample.hello = Ok temp_dir.
Proof.
  split.
  - apply (proj1 (proj2 (C9_question_read_failure Sample.garbled))
             Sample.ask initial Sample.tmp "'utf-8' codec can't decode byte 0xff").
    + reflexivity.
    + intros file_path. reflexivity.
    + reflexivity.
  - assert (H : response_of Sample.hello Sample.blank_question initial
                = Some input_error) by reflexivity.
    destruct (proj2 (proj2 (C9_question_read_failure Sample.hello))
                Sample.blank_question initial H) as [temp_dir [Ht _]].
    exists temp_dir. exact Ht.
Defined.

(** C9 as stated fails: this request has a field named [questions.txt]
    whose content decodes to a non-empty text, its upload has no file
    name, and the answer is the input error. *)
Lemma C9_counterexample :
  has_question_field Sample.unnamed_question = true
  /\ (forall key file, In (key, file) Sample.unnamed_question ->
                       decode_utf8 Sample.hello (data file) = Ok "How many rows?")
  /\ response_of Sample.hello Sample.unnamed_question initial = Some input_error.
Proof.
  split; [reflexivity|]. split; [|reflexivity].
  intros key file [[= <- <-]|[]]. reflexivity.
Qed.

(** ** File names and their suffixes *)

Lemma append_assoc (a b c : string) : (a ++ b) ++ c = a ++ (b ++ c).
Proof. induction a as [|x a IH]; cbn; [reflexivity | now rewrite IH]. Qed.

Lemma append_nil_r (a : string) : a ++ "" = a.
Proof. induction a as [|x a IH]; cbn; [reflexivity | now rewrite IH]. Qed.

Lemma rev_acc_app (s acc : string) : PyStr.rev_acc s acc = PyStr.rev s ++ acc.
Proof.
  unfold PyStr.rev. revert acc.
  induction s as [|c s IH]; intros acc; cbn; [reflexivity|].
  rewrite (IH (String c acc)), (IH (String c "")).
  rewrite append_assoc. reflexivity.
Qed.

Lemma rev_app (a b : string) : PyStr.rev (a ++ b) = PyStr.rev b ++ PyStr.rev a.
Proof.
  induction a as [|c a IH]; cbn.
  - now rewrite append_nil_r.
  - unfold PyStr.rev in *. cbn. rewrite (rev_acc_app (a ++ b)), (rev_acc_app a).
    unfold PyStr.rev. rewrite IH, append_assoc. reflexivity.
Qed.

Lemma startswith_nil (s : string) : PyStr.startswith s "" = true.
Proof. destruct s; reflexivity. Qed.

Lemma startswith_app (p r : string) : PyStr.startswith (p ++ r) p = true.
Proof.
  induction p as [|c p IH]; cbn; [destruct r; reflexivity|].
  now rewrite Ascii.eqb_refl, IH.
Qed.

(** A name made of a stem and a suffix ends with that suffix. *)
Lemma endswith_app (stem ext : string) : PyStr.endswith (stem ++ ext) ext = true.
Proof. unfold PyStr.endswith. rewrite rev_app. apply startswith_app. Qed.

(** C10.  For a file whose name ends in [.png], [.jpg] or [.jpeg],
    [read_file_content] returns [data:image/png;base64,] followed by the
    base64 encoding of the bytes of the file: the subtype written is [png]
    for the three suffixes alike. *)
Theorem C10_image_preview (w : World) (fs : list (string * list byte))
    (stem ext : string) (bs : list byte) (max_rows : nat) :
  In ext [".png"; ".jpg"; ".jpeg"] ->
  lookup_file fs (stem ++ ext) = Some bs ->
  read_file_content w fs (stem ++ ext) max_rows
  = "data:image/png;base64," ++ Base64.b64encode bs.
Proof.
  intros Hext Hfile.
  unfold read_file_content, read_file_content_try, read_bytes.
  unfold PyStr.endswith_any, image_suffixes, PyStr.endswith. cbn [existsb].
  rewrite rev_app, Hfile.
  destruct Hext as [<-|[<-|[<-|[]]]];
    change (PyStr.rev ".png") with "gnp."; change (PyStr.rev ".jpg") with "gpj.";
    change (PyStr.rev ".jpeg") with "gepj."; change (PyStr.rev ".csv") with "vsc.";
    change (PyStr.rev ".txt") with "txt."; cbn;
    rewrite ?startswith_nil; reflexivity.
Qed.

Lemma C10_image_preview_witness :
  read_file_content Sample.hello
    [("/tmp/tmpk3x9/b.jpeg", list_byte_of_string "Man")] "/tmp/tmpk3x9/b.jpeg" 10
  = "data:image/png;base64,TWFu".
Proof.
  apply (C10_image_preview Sample.hello _ "/tmp/tmpk3x9/b" ".jpeg"
           (list_byte_of_string "Man") 10).
  - right. right. left. reflexivity.
  - reflexivity.
Defined.

(** * Further properties of the code *)

(** ** White space and the success predicate *)

Lemma has_visible_app (a b : string) :
  has_visible (a ++ b) = has_visible a || has_visible b.
Proof.
  induction a as [|c a IH]; cbn; [reflexivity|].
  now rewrite IH, orb_assoc.
Qed.

Lemma has_visible_rev (s : string) : has_visible (PyStr.rev s) = has_visible s.
Proof.
  induction s as [|c s IH]; [reflexivity|].
  unfold PyStr.rev. cbn [PyStr.rev_acc]. rewrite rev_acc_app, has_visible_app, IH.
  cbn. rewrite orb_false_r. apply orb_comm.
Qed.

Lemma has_visible_lstrip (s : string) : has_visible (PyStr.lstrip s) = has_visible s.
Proof.
  induction s as [|c s IH]; [reflexivity|]. cbn.
  destruct (PyStr.isspace c) eqn:Hc; cbn; [exact IH | now rewrite Hc].
Qed.

Lemma lstrip_empty (s : string) : PyStr.lstrip s = "" <-> has_visible s = false.
Proof.
  induction s as [|c s IH]; cbn; [tauto|].
  destruct (PyStr.isspace c); cbn; [exact IH|]. split; discriminate.
Qed.

Lemma rev_empty (s : string) : PyStr.rev s = "" <-> s = "".
Proof.
  destruct s as [|c s]; [split; reflexivity|]. split; [|discriminate].
  unfold PyStr.rev. cbn [PyStr.rev_acc]. rewrite rev_acc_app.
  destruct (PyStr.rev s); discriminate.
Qed.

Lemma strip_empty (s : string) : PyStr.strip s = "" <-> has_visible s = false.
Proof.
  unfold PyStr.strip. rewrite rev_empty, lstrip_empty, has_visible_rev.
  now rewrite has_visible_lstrip.
Qed.

Lemma succeeded_visible (returncode : Z) (stdout : string) :
  succeeded returncode stdout = true
  <-> returncode = 0%Z /\ has_visible stdout = true.
Proof.
  unfold succeeded. rewrite andb_true_iff, Z.eqb_eq, truthy_true.
  rewrite strip_empty. destruct (has_visible stdout); intuition congruence.
Qed.

(** X1.  An execution result counts as a success exactly when the exit
    code is 0 and the standard output has a character that is not white
    space: an output of blanks and line ends alone is a failure. *)
Theorem X1_success_needs_visible_output (returncode : Z) (stdout : string) :
  succeeded returncode stdout = true
  <-> returncode = 0%Z /\ has_visible stdout = true.
Proof. apply succeeded_visible. Qed.

(** X2.  A timeout and a failed launch are never taken for a success: when
    the result returned by the harness meets the success predicate, the
    child has completed with exit code 0 and that very output. *)
Theorem X2_only_completed_child_succeeds (o : proc_outcome) (returncode : Z)
    (stdout stderr : string) :
  harness_result o = (returncode, stdout, stderr) ->
  succeeded returncode stdout = true ->
  o = Completed 0 stdout stderr.
Proof.
  intros Hres Hs. apply succeeded_visible in Hs as [Hrc Hv].
  destruct o as [rc out err| |e]; cbn in Hres; inversion Hres; subst;
    try discriminate. reflexivity.
Qed.

Lemma X2_only_completed_child_succeeds_witness :
  Sample.hello.(subprocess_run) 0 "s.py" 150 = Completed 0 "hello world
" "".
Proof.
  apply (X2_only_completed_child_succeeds _ 0 "hello world
" ""); reflexivity.
Defined.

(** ** The actions of the retry loop *)

Lemma attempt_step_events (w : World) (bound : nat) (q : string) (attempt : nat)
    (fl : flow LoopVars) (d : list event) (ev : event) :
  attempt_step w bound q attempt fl d ->
  In ev d ->
  match ev with
  | EExec _ t => t = 150
  | ELLM p n => prompt_question p = q /\ n = 4000 /\ is_repair ev = true
  | ELog row => row_attempt row = attempt
  | EWrite _ _ => True
  | _ => False
  end.
Proof.
  intros H Hin; destruct H; cbn in Hin;
    repeat (destruct Hin as [Hin|Hin]; [subst ev; cbn; auto|]); contradiction.
Qed.

Lemma loop_run_events (w : World) (bound : nat) (q : string) (range : list nat)
    (vars : LoopVars) (fl : flow LoopVars) (d : list event) (ev : event) :
  loop_run w bound q range vars fl d ->
  In ev d ->
  match ev with
  | EExec _ t => t = 150
  | ELLM p n => prompt_question p = q /\ n = 4000 /\ is_repair ev = true
  | ELog row => In (row_attempt row) range
  | EWrite _ _ => True
  | _ => False
  end.
Proof.
  induction 1 as [vars|attempt rest vars r d Hs|attempt rest vars e d Hs
                 |attempt rest vars vars' fl d d' Hs Hrun IH]; intros Hin.
  - contradiction.
  - pose proof (attempt_step_events _ _ _ _ _ _ ev Hs Hin) as H.
    destruct ev; auto. left. auto.
  - pose proof (attempt_step_events _ _ _ _ _ _ ev Hs Hin) as H.
    destruct ev; auto. left. auto.
  - apply in_app_or in Hin as [Hin|Hin].
    + pose proof (attempt_step_events _ _ _ _ _ _ ev Hs Hin) as H.
      destruct ev; auto. left. auto.
    + specialize (IH Hin). destruct ev; auto. right. auto.
Qed.

(** What the loop returns is the placeholder or the success answer for a
    result it has logged. *)
Lemma loop_run_return (w : World) (bound : nat) (q : string) (range : list nat)
    (vars : LoopVars) (fl : flow LoopVars) (d : list event) (r : Response) :
  loop_run w bound q range vars fl d ->
  fl = Return r ->
  r = placeholder
  \/ exists row, In (ELog row) d
                 /\ succeeded (row_returncode row) (row_stdout row) = true
                 /\ r = success_response w (row_stdout row).
Proof.
  induction 1 as [vars|attempt rest vars r' d Hs|attempt rest vars e d Hs
                 |attempt rest vars vars' fl d d' Hs Hrun IH]; intros Hfl.
  - discriminate.
  - injection Hfl as ->. inversion Hs; subst; [right | now left].
    eexists. split; [right; left; reflexivity | auto].
  - discriminate.
  - destruct (IH Hfl) as [->|[row [Hin Hrow]]]; [now left | right].
    exists row. split; [apply in_or_app; now right | exact Hrow].
Qed.

(** Every action of a run of the handler, by kind. *)
Lemma handler_run_events (w : World) (bound : nat) (req : Request)
    (fl : flow unit) (d : list event) (ev : event) :
  handler_run w bound req fl d ->
  In ev d ->
  match ev with
  | EExec _ t => t = 150
  | ELLM p n => prompt_question p <> "" /\ n = prompt_budget p
  | ELog row => row_attempt row < bound
  | _ => True
  end.
Proof.
  assert (Hsave : forall d0, saves_only d0 -> In ev d0 -> is_save ev = true).
  { intros d0 Hs Hin. unfold saves_only in Hs. rewrite forallb_forall in Hs. auto. }
  assert (Hloop : forall q vars fl' dl,
            q <> "" -> loop_run w bound q (seq 0 bound) vars fl' dl -> In ev dl ->
            match ev with
            | EExec _ t => t = 150
            | ELLM p n => prompt_question p <> "" /\ n = prompt_budget p
            | ELog row => row_attempt row < bound
            | _ => True
            end).
  { intros q vars fl' dl Hq Hl Hin.
    pose proof (loop_run_events _ _ _ _ _ _ _ ev Hl Hin) as H.
    destruct ev; auto.
    - destruct H as [Hp [-> Hr]]. split; [congruence|].
      destruct p; [discriminate | reflexivity].
    - apply in_seq in H. lia. }
  assert (Hpre : forall tmp d0 d1, saves_only d0 ->
            In ev (EMkdtemp tmp :: d0 ++ d1)%list ->
            ev = EMkdtemp tmp \/ is_save ev = true \/ In ev d1).
  { intros tmp d0 d1 Hs [Hin|Hin]; [now left|].
    apply in_app_or in Hin as [Hin|Hin]; [right; left; eauto | now right; right]. }
  intros Hrun Hin.
  destruct Hrun as [e Ht|tmp d0 fp e Ht Hs Hf|tmp d0 Ht Hs Hq
                   |tmp d0 desc info script e Ht Hs Hq Hw
                   |tmp d0 desc info script vars r dl Ht Hs Hq Hl
                   |tmp d0 desc info script vars e dl Ht Hs Hq Hl
                   |tmp d0 desc info script Ht Hs Hq Hb].
  - contradiction.
  - destruct Hin as [<-|Hin]; [exact I|].
    apply (Hsave d0 Hs) in Hin. destruct ev; try discriminate; exact I.
  - destruct Hin as [<-|Hin]; [exact I|].
    apply (Hsave d0 Hs) in Hin. destruct ev; try discriminate; exact I.
  - apply Hpre in Hin; [|exact Hs].
    destruct Hin as [->|[Hin|[<-|[]]]];
      [exact I | destruct ev; try discriminate; exact I | cbn; auto].
  - apply Hpre in Hin; [|exact Hs].
    destruct Hin as [->|[Hin|[<-|[<-|Hin]]]];
      [exact I | destruct ev; try discriminate; exact I | cbn; auto | exact I
      | eapply Hloop; eauto].
  - apply Hpre in Hin; [|exact Hs].
    destruct Hin as [->|[Hin|[<-|[<-|Hin]]]];
      [exact I | destruct ev; try discriminate; exact I | cbn; auto | exact I
      | eapply Hloop; eauto].
  - apply Hpre in Hin; [|exact Hs].
    destruct Hin as [->|[Hin|[<-|[<-|[]]]]];
      [exact I | destruct ev; try discriminate; exact I | cbn; auto | exact I].
Qed.

Lemma bounded_run (w : World) (bound : nat) (req : Request) (st : State) :
  exists fl,
    handler_run w bound req fl
      (new_events st (snd (analyze_data_with w bound req st)))
    /\ fst (analyze_data_with w bound req st) = answer w fl.
Proof.
  destruct (analyze_data_with_run w bound req st) as [fl [d [Hrun [Ha [Hev _]]]]].
  exists fl. rewrite (new_events_app _ _ _ Hev). auto.
Qed.

(** X3.  Whatever the attempt bound, the handler has four answers only:
    the input error (400), the internal error (500), the placeholder list
    (200), and the success answer for a result it has logged and that
    meets the success predicate (200).  The failure payload written after
    the loop is never an answer. *)
Theorem X3_answers_of_the_handler (w : World) (bound : nat) (req : Request)
    (st : State) :
  let r := fst (analyze_data_with w bound req st) in
  let d := new_events st (snd (analyze_data_with w bound req st)) in
  (r = Some input_error
   \/ (exists e, r = Some (internal_error w e))
   \/ r = Some placeholder
   \/ exists row, In (ELog row) d
                  /\ succeeded (row_returncode row) (row_stdout row) = true
                  /\ r = Some (success_response w (row_stdout row)))
  /\ (forall stdout stderr script, r <> Some (failure_payload stdout stderr script)).
Proof.
  cbv zeta. destruct (bounded_run w bound req st) as [fl [Hrun ->]].
  assert (Hshape :
    answer w fl = Some input_error
    \/ (exists e, answer w fl = Some (internal_error w e))
    \/ answer w fl = Some placeholder
    \/ exists row, In (ELog row) (new_events st (snd (analyze_data_with w bound req st)))
                   /\ succeeded (row_returncode row) (row_stdout row) = true
                   /\ answer w fl = Some (success_response w (row_stdout row))).
  { destruct Hrun as [e Ht|tmp d0 fp e Ht Hs Hf|tmp d0 Ht Hs Hq
                     |tmp d0 desc info script e Ht Hs Hq Hw
                     |tmp d0 desc info script vars r dl Ht Hs Hq Hl
                     |tmp d0 desc info script vars e dl Ht Hs Hq Hl
                     |tmp d0 desc info script Ht Hs Hq Hb]; cbn [answer]; eauto.
    destruct (loop_run_return _ _ _ _ _ _ _ r Hl eq_refl) as [->|[row [Hin [Hok ->]]]].
    - auto.
    - right. right. right. exists row. repeat split; auto.
      right. apply in_or_app. right. right. right. exact Hin. }
  split; [exact Hshape|].
  intros stdout stderr script Heq. rewrite Heq in Hshape.
  destruct Hshape as [H|[[e H]|[H|[row [_ [_ H]]]]]]; try discriminate.
  unfold success_response in H. destruct (json_loads w _); discriminate.
Qed.

(** X4.  With an attempt bound of 0 the loop body never runs: a request
    with a question, in a world where nothing raises before the loop,
    reaches the statement after the loop, where reading [stdout] raises,
    and is answered with the internal error; the model has been called
    once and nothing has been executed. *)
Theorem X4_zero_bound (w : World) (req : Request) (st : State) (temp_dir : string) :
  mkdtemp w = Ok temp_dir ->
  (forall file_path, save_fault w file_path = None) ->
  (forall file_path text, open_write_fault w file_path text = None) ->
  final_question w temp_dir req "" <> "" ->
  let d := new_events st (snd (analyze_data_with w 0 req st)) in
  fst (analyze_data_with w 0 req st) = Some (internal_error w unbound_stdout)
  /\ count is_generation d = 1
  /\ count_exec d = 0.
Proof.
  intros Htmp Hsave Hwrite Hq. cbv zeta.
  destruct (bounded_run w 0 req st) as [fl [Hrun ->]].
  destruct (handler_run_counts _ _ _ _ _ Hrun) as [He _].
  destruct (handler_run_generation _ _ _ _ _ Hrun)
    as [[_ [[tmp [Ht [Hq0 _]]]|[e' [_ [Ht|[fp Hf]]]]]]|[Hg _]].
  { rewrite Htmp in Ht. injection Ht as <-. contradiction. }
  { congruence. }
  { rewrite Hsave in Hf. discriminate. }
  split; [|split; [exact Hg | lia]].
  destruct Hrun as [e Ht|tmp d0 fp e Ht Hs Hf|tmp d0 Ht Hs Hq'
                   |tmp d0 desc info script e Ht Hs Hq' Hw
                   |tmp d0 desc info script vars r dl Ht Hs Hq' Hl
                   |tmp d0 desc info script vars e dl Ht Hs Hq' Hl
                   |tmp d0 desc info script Ht Hs Hq' Hb].
  - congruence.
  - rewrite Hsave in Hf. discriminate.
  - rewrite Htmp in Ht. injection Ht as <-. contradiction.
  - rewrite Hwrite in Hw. discriminate.
  - inversion Hl.
  - inversion Hl.
  - reflexivity.
Qed.

Lemma X4_zero_bound_witness :
  fst (analyze_data_with Sample.hello 0 Sample.ask initial)
  = Some (internal_error Sample.hello unbound_stdout).
Proof.
  apply (X4_zero_bound Sample.hello Sample.ask initial Sample.tmp).
  - reflexivity.
  - intros file_path. reflexivity.
  - intros file_path text. reflexivity.
  - vm_compute. discriminate.
Defined.

(** X5.  The language model is never asked with an empty question: every
    call made during a run carries a non-empty question, with an output
    budget of 5000 for a generation prompt and 4000 for a repair prompt. *)
Theorem X5_model_calls (w : World) (bound : nat) (req : Request) (st : State)
    (p : Prompt) (n : nat) :
  In (ELLM p n) (new_events st (snd (analyze_data_with w bound req st))) ->
  prompt_question p <> "" /\ n = prompt_budget p.
Proof.
  intros Hin. destruct (bounded_run w bound req st) as [fl [Hrun _]].
  exact (handler_run_events _ _ _ _ _ _ Hrun Hin).
Qed.

Lemma X5_model_calls_witness :
  prompt_question (GenerationPrompt "How many rows?" ""
                     [("questions.txt", mkMeta 14 "/tmp/tmpk3x9/questions.txt")]) <> ""
  /\ 5000 = prompt_budget (GenerationPrompt "How many rows?" ""
                     [("questions.txt", mkMeta 14 "/tmp/tmpk3x9/questions.txt")]).
Proof.
  apply (X5_model_calls Sample.hello 1 Sample.ask initial). find_event.
Defined.

(** X6.  Every execution the handler starts is given a timeout of 150
    seconds, whatever the attempt bound, while the message the harness
    returns for a timeout speaks of 180 seconds. *)
Theorem X6_timeout_passed_and_reported (w : World) (bound : nat) (req : Request)
    (st : State) (script_path : string) (timeout : nat) :
  In (EExec script_path timeout)
     (new_events st (snd (analyze_data_with w bound req st))) ->
  timeout = 150
  /\ harness_result TimeoutExpired
     = ((-1)%Z, "", "Script execution timed out after 180 seconds").
Proof.
  intros Hin. destruct (bounded_run w bound req st) as [fl [Hrun _]].
  split; [exact (handler_run_events _ _ _ _ _ _ Hrun Hin) | reflexivity].
Qed.

Lemma X6_timeout_passed_and_reported_witness :
  150 = 150
  /\ harness_result TimeoutExpired
     = ((-1)%Z, "", "Script execution timed out after 180 seconds").
Proof.
  apply (X6_timeout_passed_and_reported Sample.slow 1 Sample.ask initial
           "/tmp/tmpk3x9/analysis_script.py" 150).
  find_event.
Defined.

(** ** Runs in which the file system and the log do not fail *)







(** ** Uploads without a file name, and several question fields *)

Lemma process_files_named (w : World) (temp_dir : string) (items : Request) :
  forall (loc : Uploaded) (st : State),
    process_files w temp_dir items loc st
    = process_files w temp_dir (filter named items) loc st.
Proof.
  induction items as [|[key file] rest IH]; intros loc st; [reflexivity|].
  cbn [filter]. unfold named at 1. cbn [snd].
  rewrite process_files_cons.
  destruct (PyStr.truthy (filename file)) eqn:Hn; [|apply IH].
  rewrite process_files_cons, Hn. cbv zeta.
  destruct (save_fault w _); [reflexivity | apply IH].
Qed.

(** X8.  Uploads without a file name are ignored altogether: the handler
    gives the same answer and ends in the same state as for the request
    without them, whatever form field they come under. *)
Theorem X8_unnamed_uploads_ignored (w : World) (bound : nat) (req : Request)
    (st : State) :
  analyze_data_with w bound req st = analyze_data_with w bound (filter named req) st.
Proof.
  unfold analyze_data_with. rewrite !analyze_data_try_eq.
  destruct (mkdtemp w) as [temp_dir|e]; [|reflexivity].
  cbv zeta. now rewrite process_files_named.
Qed.

Lemma final_question_app (w : World) (temp_dir : string) (a b : Request) (q : string) :
  final_question w temp_dir (a ++ b)%list q
  = final_question w temp_dir b (final_question w temp_dir a q).
Proof.
  revert q. induction a as [|kf a IH]; intros q; [reflexivity|].
  cbn. apply IH.
Qed.

Lemma final_question_unset (w : World) (temp_dir : string) (items : Request) :
  forall q, existsb sets_question items = false ->
            final_question w temp_dir items q = q.
Proof.
  induction items as [|kf rest IH]; intros q H; [reflexivity|].
  cbn in H. apply orb_false_iff in H as [Hk Hrest].
  cbn. rewrite Hk. now apply IH.
Qed.

(** The question of a generation prompt sent during a run is the value of
    [question] after the loop over the uploads. *)
Lemma handler_run_prompt (w : World) (bound : nat) (req : Request)
    (fl : flow unit) (d : list event) (q desc : string) (info : dict FileMeta)
    (n : nat) :
  handler_run w bound req fl d ->
  In (ELLM (GenerationPrompt q desc info) n) d ->
  exists temp_dir, mkdtemp w = Ok temp_dir /\ q = final_question w temp_dir req "".
Proof.
  assert (Hpre : forall tmp d0 d1, saves_only d0 ->
            In (ELLM (GenerationPrompt q desc info) n) (EMkdtemp tmp :: d0 ++ d1)%list ->
            In (ELLM (GenerationPrompt q desc info) n) d1).
  { intros tmp d0 d1 Hs [Hin|Hin]; [discriminate|].
    apply in_app_or in Hin as [Hin|Hin]; [|exact Hin].
    unfold saves_only in Hs. rewrite forallb_forall in Hs.
    specialize (Hs _ Hin). discriminate. }
  assert (Hloop : forall q' vars fl' dl,
            loop_run w bound q' (seq 0 bound) vars fl' dl ->
            ~ In (ELLM (GenerationPrompt q desc info) n) dl).
  { intros q' vars fl' dl Hl Hin.
    pose proof (loop_run_events _ _ _ _ _ _ _ _ Hl Hin) as [_ [_ Hr]]. discriminate. }
  intros Hrun Hin.
  destruct Hrun as [e Ht|tmp d0 fp e Ht Hs Hf|tmp d0 Ht Hs Hq
                   |tmp d0 desc' info' script e Ht Hs Hq Hw
                   |tmp d0 desc' info' script vars r dl Ht Hs Hq Hl
                   |tmp d0 desc' info' script vars e dl Ht Hs Hq Hl
                   |tmp d0 desc' info' script Ht Hs Hq Hb].
  - contradiction.
  - rewrite <- (app_nil_r d0) in Hin. apply Hpre in Hin; [contradiction | exact Hs].
  - rewrite <- (app_nil_r d0) in Hin. apply Hpre in Hin; [contradiction | exact Hs].
  - apply Hpre in Hin; [|exact Hs]. destruct Hin as [[= <- _ _ _]|[]]. eauto.
  - apply Hpre in Hin; [|exact Hs].
    destruct Hin as [[= <- _ _ _]|[Hin|Hin]]; [eauto | discriminate |].
    now elim (Hloop _ _ _ _ Hl).
  - apply Hpre in Hin; [|exact Hs].
    destruct Hin as [[= <- _ _ _]|[Hin|Hin]]; [eauto | discriminate |].
    now elim (Hloop _ _ _ _ Hl).
  - apply Hpre in Hin; [|exact Hs].
    destruct Hin as [[= <- _ _ _]|[Hin|[]]]; [eauto | discriminate].
Qed.

(** X9.  When several uploads can set the question, the last one wins:
    the question sent to the language model is what [read_file_content]
    makes of the last named upload that comes under a question field,
    whatever the uploads before it hold. *)
Theorem X9_last_question_wins (w : World) (bound : nat) (pre post : Request)
    (key : string) (file : FileStorage) (st : State) (temp_dir : string)
    (q desc : string) (info : dict FileMeta) (n : nat) :
  mkdtemp w = Ok temp_dir ->
  sets_question (key, file) = true ->
  existsb sets_question post = false ->
  In (ELLM (GenerationPrompt q desc info) n)
     (new_events st (snd (analyze_data_with w bound (pre ++ (key, file) :: post)%list st))) ->
  q = content_of w temp_dir file.
Proof.
  intros Htmp Hset Hpost Hin.
  destruct (bounded_run w bound (pre ++ (key, file) :: post)%list st) as [fl [Hrun _]].
  destruct (handler_run_prompt _ _ _ _ _ _ _ _ _ Hrun Hin) as [tmp [Ht ->]].
  rewrite Htmp in Ht. injection Ht as <-.
  rewrite final_question_app. cbn [final_question]. rewrite Hset. cbn [snd].
  now apply final_question_unset.
Qed.

Lemma X9_last_question_wins_witness :
  "Second?" = content_of Sample.hello Sample.tmp (Sample.upload "q2.txt" "Second?").
Proof.
  eapply (X9_last_question_wins Sample.hello 1
            [("questions.txt", Sample.upload "q1.txt" "First?")] []
            "question_b" (Sample.upload "q2.txt" "Second?") initial Sample.tmp
            "Second?" _ _ _).
  - reflexivity.
  - reflexivity.
  - reflexivity.
  - vm_compute. right. right. right. left. reflexivity.
Defined.

(** ** The dictionaries filled by the loop over the uploads *)

Lemma dict_set_in {V : Type} (d : dict V) (k k' : string) (v v' : V) :
  In (k', v') (dict_set d k v) -> (k' = k /\ v' = v) \/ In (k', v') d.
Proof.
  induction d as [|[k0 v0] d IH]; cbn.
  - intros [[= <- <-]|[]]. now left.
  - destruct (String.eqb_spec k0 k) as [->|Hne]; cbn.
    + intros [[= <- <-]|Hin]; [now left | right; now right].
    + intros [Heq|Hin]; [right; now left|].
      destruct (IH Hin) as [H|H]; [now left | right; now right].
Qed.

Lemma keys_dict_set {V : Type} (d : dict V) (k k' : string) (v : V) :
  In k' (keys (dict_set d k v)) <-> k' = k \/ In k' (keys d).
Proof.
  induction d as [|[k0 v0] d IH]; cbn.
  - intuition congruence.
  - destruct (String.eqb_spec k0 k) as [->|Hne]; cbn.
    + intuition congruence.
    + rewrite IH. intuition congruence.
Qed.

Lemma NoDup_dict_set {V : Type} (d : dict V) (k : string) (v : V) :
  NoDup (keys d) -> NoDup (keys (dict_set d k v)).
Proof.
  induction d as [|[k0 v0] d IH]; cbn; intros Hnd.
  - constructor; [intros [] | constructor].
  - inversion Hnd as [|? ? Hnotin Hnd']; subst.
    destruct (String.eqb_spec k0 k) as [->|Hne]; cbn.
    + constructor; assumption.
    + constructor; [|now apply IH].
      fold (keys (dict_set d k v)). rewrite keys_dict_set.
      intros [->|Hin]; [now apply Hne | now apply Hnotin].
Qed.

Lemma lookup_file_cons (fs : list (string * list byte)) (p p' : string)
    (bs : list byte) :
  lookup_file fs p' <> None -> lookup_file ((p, bs) :: fs) p' <> None.
Proof. cbn. destruct (String.eqb p p'); [discriminate | trivial]. Qed.

Lemma recorded_cons (w : World) (temp_dir : string) (kf : string * FileStorage)
    (items : Request) (name : string) (meta : FileMeta) :
  recorded w temp_dir items name meta -> recorded w temp_dir (kf :: items) name meta.
Proof.
  intros [key [file [Hin H]]]. exists key, file. split; [now right | exact H].
Qed.

(** What the loop over the uploads keeps true of [file_info] and
    [file_contents], from any starting point. *)
Lemma process_files_inv (w : World) (temp_dir : string) (items : Request) :
  forall (loc : Uploaded) (st : State) (up : Uploaded),
    fst (process_files w temp_dir items loc st) = Next up ->
    (NoDup (keys (file_info loc)) -> NoDup (keys (file_info up)))
    /\ (incl (keys (file_contents loc)) (keys (file_info loc)) ->
        incl (keys (file_contents up)) (keys (file_info up)))
    /\ (forall k, In k (keys (file_info loc)) -> In k (keys (file_info up)))
    /\ (forall p, lookup_file (files st) p <> None ->
                  lookup_file (files (snd (process_files w temp_dir items loc st))) p
                  <> None)
    /\ (forall name meta,
           In (name, meta) (file_info up) ->
           (In (name, meta) (file_info loc) /\
            (lookup_file (files st) (path meta) <> None ->
             lookup_file (files (snd (process_files w temp_dir items loc st)))
                         (path meta) <> None))
           \/ (recorded w temp_dir items name meta /\
               lookup_file (files (snd (process_files w temp_dir items loc st)))
                           (path meta) <> None))
    /\ (forall key file, In (key, file) items -> filename file <> "" ->
                         In (secure_filename w (filename file)) (keys (file_info up))).
Proof.
  induction items as [|[key file] rest IH]; intros loc st up Hup.
  - cbn in Hup. injection Hup as <-. cbn.
    repeat split; auto. intros key file [].
  - rewrite process_files_cons in *.
    destruct (PyStr.truthy (filename file)) eqn:Hn.
    2:{ destruct (IH loc st up Hup) as [H1 [H2 [H3 [H4 [H5 H6]]]]].
        repeat split; auto.
        - intros name meta Hin. destruct (H5 name meta Hin) as [H|[Hr Hf]];
            [now left | right; split; [now apply recorded_cons | exact Hf]].
        - intros key' file' [[= <- <-]|Hin] Hne; [|eauto].
          apply truthy_false in Hn. contradiction. }
    cbv zeta in *.
    destruct (save_fault w _) as [e|]; [discriminate|].
    set (name := secure_filename w (filename file)) in *.
    set (file_path := os_path_join temp_dir name) in *.
    set (loc' := uploaded_next w temp_dir key file loc st) in *.
    set (st1 := saved st file file_path) in *.
    destruct (IH loc' st1 up Hup) as [H1 [H2 [H3 [H4 [H5 H6]]]]].
    assert (Hinfo : file_info loc'
                    = dict_set (file_info loc) name
                        (mkMeta (List.length (data file)) file_path)).
    { subst loc'. unfold uploaded_next. fold name file_path.
      destruct (is_question_key key); reflexivity. }
    assert (Hsaved : lookup_file (files st1) file_path <> None).
    { subst st1. cbn. rewrite String.eqb_refl. discriminate. }
    assert (Hkeep : forall p, lookup_file (files st) p <> None ->
                              lookup_file (files st1) p <> None).
    { intros p Hp. subst st1. cbn [saved files]. now apply lookup_file_cons. }
    split; [|split; [|split; [|split; [|split]]]].
    + intros Hnd. apply H1. rewrite Hinfo. now apply NoDup_dict_set.
    + intros Hincl. apply H2. rewrite Hinfo. intros k Hk.
      apply keys_dict_set.
      subst loc'. unfold uploaded_next in Hk. fold name file_path in Hk.
      destruct (is_question_key key); cbn [file_contents] in Hk.
      * right. now apply Hincl.
      * apply keys_dict_set in Hk as [->|Hk]; [now left | right; now apply Hincl].
    + intros k Hk. apply H3. rewrite Hinfo. apply keys_dict_set. now right.
    + intros p Hp. apply H4. now apply Hkeep.
    + intros nm meta Hin. destruct (H5 nm meta Hin) as [[Hloc Hf]|[Hr Hf]].
      * rewrite Hinfo in Hloc. apply dict_set_in in Hloc as [[-> ->]|Hloc].
        -- right. split; [|apply Hf; exact Hsaved].
           exists key, file. repeat split; [now left | now apply truthy_true].
        -- left. split; [exact Hloc|]. intros Hp. apply Hf. now apply Hkeep.
      * right. split; [now apply recorded_cons | exact Hf].
    + intros key' file' [[= <- <-]|Hin] Hne; [|eauto].
      apply H3. rewrite Hinfo. apply keys_dict_set. now left.
Qed.

(** X10.  After the loop over the uploads, [file_info] has one entry for
    each sanitised name of a named upload and no other: its keys are
    distinct; each entry gives the length of the bytes of an upload with
    that name and the path made of the temporary directory and the name,
    and a file is stored under that path; every key of [file_contents] is
    a key of [file_info]. *)
Theorem X10_file_info_invariant (w : World) (temp_dir : string) (req : Request)
    (st : State) (up : Uploaded) :
  fst (process_files w temp_dir req (mkUploaded [] [] "") st) = Next up ->
  NoDup (keys (file_info up))
  /\ incl (keys (file_contents up)) (keys (file_info up))
  /\ (forall name meta,
         In (name, meta) (file_info up) ->
         recorded w temp_dir req name meta
         /\ lookup_file
              (files (snd (process_files w temp_dir req (mkUploaded [] [] "") st)))
              (path meta) <> None)
  /\ (forall key file, In (key, file) req -> filename file <> "" ->
                       In (secure_filename w (filename file)) (keys (file_info up))).
Proof.
  intros Hup.
  destruct (process_files_inv w temp_dir req _ st up Hup) as [H1 [H2 [_ [_ [H5 H6]]]]].
  cbn in *. split; [apply H1; constructor|]. split; [apply H2; intros k []|].
  split; [|exact H6].
  intros name meta Hin. destruct (H5 name meta Hin) as [[[] _]|H]. exact H.
Qed.

Lemma X10_file_info_invariant_witness :
  NoDup (keys [("questions.txt", mkMeta 14 "/tmp/tmpk3x9/questions.txt")]).
Proof.
  assert (H : fst (process_files Sample.hello Sample.tmp Sample.ask
                                 (mkUploaded [] [] "") initial)
              = Next (mkUploaded []
                        [("questions.txt", mkMeta 14 "/tmp/tmpk3x9/questions.txt")]
                        "How many rows?")) by reflexivity.
  exact (proj1 (X10_file_info_invariant _ _ _ _ _ H)).
Defined.

(** ** A run with the bound of the source *)

Lemma save_of_cons (w : World) (temp_dir : string) (kf : string * FileStorage)
    (items : Request) (ev : event) :
  save_of w temp_dir items ev -> save_of w temp_dir (kf :: items) ev.
Proof.
  intros [key [file [Hin H]]]. exists key, file. split; [now right | exact H].
Qed.

Lemma process_files_saves (w : World) (temp_dir : string) (items : Request) :
  forall (loc : Uploaded) (st : State),
  exists d,
    events (snd (process_files w temp_dir items loc st)) = (events st ++ d)%list
    /\ forall ev, In ev d -> save_of w temp_dir items ev.
Proof.
  induction items as [|[key file] rest IH]; intros loc st.
  - exists []. cbn. split; [now rewrite app_nil_r | intros ev []].
  - rewrite process_files_cons.
    destruct (PyStr.truthy (filename file)) eqn:Hn.
    2:{ destruct (IH loc st) as [d [Hev Hd]]. exists d. split; [exact Hev|].
        intros ev Hin. apply save_of_cons. now apply Hd. }
    cbv zeta. destruct (save_fault w _) as [e|].
    + exists []. cbn. split; [now rewrite app_nil_r | intros ev []].
    + match goal with
      | |- context [process_files w temp_dir rest ?l ?s] =>
          destruct (IH l s) as [d [Hev Hd]]
      end.
      exists (ESave (os_path_join temp_dir (secure_filename w (filename file))) :: d).
      split.
      * rewrite Hev. cbn. now rewrite <- app_assoc.
      * intros ev [<-|Hin].
        -- exists key, file. repeat split; [now left | now apply truthy_true].
        -- apply save_of_cons. now apply Hd.
Qed.

Lemma generate_and_run_once (w : World) (temp_dir : string) (up : Uploaded)
    (st : State) :
  generate_and_run w 1 temp_dir up st =
  let p := GenerationPrompt (question up) (describe_files (file_contents up) "")
                            (file_info up) in
  let script := strip_fences (generated_text w p) in
  let script_path := os_path_join temp_dir "analysis_script.py" in
  match open_write_fault w script_path script with
  | Some e => (Raise e, push st [ELLM p 5000])
  | None =>
      let st1 := written (push st [ELLM p 5000]) script_path script in
      let '(returncode, stdout, stderr) :=
        harness_result (subprocess_run w (count_exec (events st1)) script_path 150) in
      match log_fault w 0 with
      | Some e => (Raise e, push st1 [EExec script_path 150])
      | None =>
          (Return (if succeeded returncode stdout
                   then success_response w stdout else placeholder),
           push (push st1 [EExec script_path 150])
                [ELog (mkRow (question up) (now w) 0 returncode stdout stderr)])
      end
  end.
Proof.
  rewrite generate_and_run_eq. cbv zeta.
  destruct (open_write_fault w _ _); [reflexivity|].
  cbn [seq for_attempts]. unfold bind at 1. rewrite attempt_body_eq.
  cbn [script_content].
  destruct (harness_result _) as [[returncode stdout] stderr]. cbv zeta.
  destruct (log_fault w 0); [reflexivity|].
  destruct (succeeded returncode stdout); reflexivity.
Qed.

(** The actions and the final state of a run of the handler as the source
    has it: the directory, the saves, and what follows script
    generation. *)
Lemma analyze_data_once (w : World) (req : Request) (st : State) :
  (exists e, mkdtemp w = Raised e /\ trace_of w req st = []
             /\ snd (analyze_data w req st) = st)
  \/ exists temp_dir d0,
       mkdtemp w = Ok temp_dir
       /\ (forall ev, In ev d0 -> save_of w temp_dir req ev)
       /\ (trace_of w req st = EMkdtemp temp_dir :: d0
           \/ exists up st1,
                question up <> ""
                /\ trace_of w req st
                   = (EMkdtemp temp_dir :: d0
                      ++ new_events st1 (snd (generate_and_run w 1 temp_dir up st1)))%list
                /\ snd (analyze_data w req st)
                   = snd (generate_and_run w 1 temp_dir up st1)).
Proof.
  unfold trace_of, analyze_data, analyze_data_with, max_attempts.
  rewrite analyze_data_try_eq.
  destruct (mkdtemp w) as [temp_dir|e].
  2:{ left. exists e. cbn. repeat split.
      unfold new_events. cbn. now rewrite skipn_all. }
  right. cbv zeta.
  set (st0 := mkState (temp_dir :: dirs st) (files st) (events st ++ [EMkdtemp temp_dir])).
  destruct (process_files_saves w temp_dir req (mkUploaded [] [] "") st0)
    as [d0 [Hev0 Hd0]].
  exists temp_dir, d0. split; [reflexivity|]. split; [exact Hd0|].
  assert (Hst1 : forall st1, events st1 = (events st0 ++ d0)%list ->
                             new_events st st1 = EMkdtemp temp_dir :: d0).
  { intros st1 H. apply new_events_app. rewrite H. subst st0. cbn.
    now rewrite <- app_assoc. }
  destruct (process_files w temp_dir req (mkUploaded [] [] "") st0)
    as [[up|r|e] st1]; cbn [fst snd] in *.
  - destruct (PyStr.truthy (question up)) eqn:Hq.
    + right. exists up, st1. apply truthy_true in Hq. split; [exact Hq|].
      destruct (generate_and_run w 1 temp_dir up st1) as [fl st2] eqn:Hg.
      assert (Hext : exists d, events st2 = (events st1 ++ d)%list).
      { pose proof (generate_and_run_once w temp_dir up st1) as Honce.
        rewrite Hg in Honce. cbv zeta in Honce.
        destruct (open_write_fault w _ _).
        - injection Honce as _ ->. eexists. reflexivity.
        - destruct (harness_result _) as [[rc out] err].
          destruct (log_fault w 0); injection Honce as _ ->; cbn;
            eexists; rewrite <- ?app_assoc; reflexivity. }
      destruct Hext as [d Hd]. cbn [snd].
      split.
      * rewrite (new_events_app st1 st2 d Hd).
        destruct fl; cbn [snd]; apply new_events_app; rewrite Hd, Hev0;
          subst st0; cbn; now rewrite <- !app_assoc.
      * destruct fl; reflexivity.
    + left. cbn [snd]. now apply Hst1.
  - left. now apply Hst1.
  - left. now apply Hst1.
Qed.

(** ** Code fences *)

Lemma startswith_fence (c : ascii) (s : string) :
  PyStr.startswith (String c s) "```" = Ascii.eqb "`" c && PyStr.startswith s "``".
Proof. reflexivity. Qed.

Lemma replace_fence_keep (c : ascii) (s : string) :
  PyStr.startswith (String c s) "```" = false ->
  PyStr.replace (String c s) "```" "" = String c (PyStr.replace s "```" "").
Proof. unfold PyStr.replace. cbn [PyStr.replace_from]. now intros ->. Qed.

Lemma replace_fence_drop (s : string) :
  PyStr.replace (String "`" (String "`" (String "`" s))) "```" ""
  = PyStr.replace s "```" "".
Proof.
  unfold PyStr.replace. cbn [PyStr.replace_from].
  assert (H : PyStr.startswith (String "`" (String "`" (String "`" s))) "```" = true)
    by (cbn; now rewrite startswith_nil).
  rewrite H. reflexivity.
Qed.

Lemma startswith_cons (a b : ascii) (s p : string) :
  PyStr.startswith (String b s) (String a p) = Ascii.eqb a b && PyStr.startswith s p.
Proof. reflexivity. Qed.

Lemma startswith_two (a b : ascii) (s : string) :
  PyStr.startswith (String a (String b s)) "``" = Ascii.eqb "`" a && Ascii.eqb "`" b.
Proof. cbn. now rewrite startswith_nil, andb_true_r. Qed.

Lemma two_ticks (s : string) :
  PyStr.startswith s "``" = true ->
  exists s', s = String "`" (String "`" s').
Proof.
  destruct s as [|a [|b s']]; try (cbn; discriminate).
  - cbn. rewrite andb_false_r. discriminate.
  - rewrite startswith_two. intros H. apply andb_true_iff in H as [Ha Hb].
    apply Ascii.eqb_eq in Ha, Hb. subst. eauto.
Qed.

Lemma replace_fence_two_ticks (s : string) :
  PyStr.startswith s "``" = false ->
  PyStr.startswith (PyStr.replace s "```" "") "``" = false.
Proof.
  destruct s as [|a [|b u]]; intros H.
  - reflexivity.
  - cbn. now rewrite andb_false_r.
  - rewrite startswith_two in H.
    assert (Ha : PyStr.startswith (String a (String b u)) "```" = false).
    { rewrite startswith_fence.
      destruct (Ascii.eqb "`" a) eqn:Ea; [|reflexivity]. cbn [andb] in *.
      now rewrite startswith_cons, H. }
    rewrite (replace_fence_keep _ _ Ha).
    destruct (Ascii.eqb "`" a) eqn:Ea; cbn [andb] in H.
    + assert (Hb : PyStr.startswith (String b u) "```" = false).
      { now rewrite startswith_cons, H. }
      rewrite (replace_fence_keep _ _ Hb). rewrite startswith_two, H.
      apply andb_false_r.
    + destruct (PyStr.replace (String b u) "```" "") as [|x y].
      * cbn. now rewrite andb_false_r.
      * rewrite startswith_two, Ea. reflexivity.
Qed.

Lemma replace_fence_clean (n : nat) :
  forall s, String.length s <= n ->
            contains (PyStr.replace s "```" "") "```" = false.
Proof.
  induction n as [|n IH]; intros s Hlen.
  - destruct s; [reflexivity | cbn in Hlen; lia].
  - destruct s as [|c s]; [reflexivity|]. cbn [String.length] in Hlen.
    destruct (PyStr.startswith (String c s) "```") eqn:Hf.
    + rewrite startswith_fence in Hf. apply andb_true_iff in Hf as [Hc Hs].
      apply Ascii.eqb_eq in Hc. subst c.
      destruct (two_ticks s Hs) as [s' ->].
      rewrite replace_fence_drop. apply IH. cbn in Hlen. lia.
    + rewrite (replace_fence_keep _ _ Hf). cbn [contains].
      rewrite (IH s) by lia. rewrite orb_false_r.
      rewrite startswith_fence in *.
      destruct (Ascii.eqb "`" c); [|reflexivity]. cbn [andb] in *.
      now apply replace_fence_two_ticks.
Qed.

Lemma strip_fences_clean (generated : string) :
  contains (strip_fences generated) "```" = false.
Proof. unfold strip_fences. eapply replace_fence_clean. reflexivity. Qed.

Lemma trace_of_event (w : World) (req : Request) (st : State) (ev : event) :
  In ev (trace_of w req st) ->
  exists temp_dir,
    mkdtemp w = Ok temp_dir
    /\ (ev = EMkdtemp temp_dir
        \/ save_of w temp_dir req ev
        \/ exists up st1,
             question up <> ""
             /\ snd (analyze_data w req st) = snd (generate_and_run w 1 temp_dir up st1)
             /\ In ev (new_events st1 (snd (generate_and_run w 1 temp_dir up st1)))).
Proof.
  intros Hin.
  destruct (analyze_data_once w req st)
    as [[e [_ [Ht _]]]|[temp_dir [d0 [Htmp [Hd0 [Ht|[up [st1 [Hq [Ht Hfin]]]]]]]]]];
    rewrite Ht in Hin.
  - contradiction.
  - exists temp_dir. split; [exact Htmp|].
    destruct Hin as [<-|Hin]; [now left | right; left; now apply Hd0].
  - exists temp_dir. split; [exact Htmp|].
    destruct Hin as [<-|Hin]; [now left|].
    apply in_app_or in Hin as [Hin|Hin]; [right; left; now apply Hd0|].
    right. right. exists up, st1. auto.
Qed.

(** The actions that follow the uploads in a run with one attempt, and the
    script left in the workspace. *)
Lemma once_tail (w : World) (temp_dir : string) (up : Uploaded) (st1 : State) :
  let p := GenerationPrompt (question up) (describe_files (file_contents up) "")
                            (file_info up) in
  let script := strip_fences (generated_text w p) in
  let script_path := os_path_join temp_dir "analysis_script.py" in
  let fin := snd (generate_and_run w 1 temp_dir up st1) in
  new_events st1 fin = [ELLM p 5000]
  \/ (lookup_file (files fin) script_path = Some (list_byte_of_string script)
      /\ exists n returncode stdout stderr,
           harness_result (subprocess_run w n script_path 150)
           = (returncode, stdout, stderr)
           /\ (new_events st1 fin
               = [ELLM p 5000; EWrite script_path script; EExec script_path 150]
               \/ new_events st1 fin
                  = [ELLM p 5000; EWrite script_path script; EExec script_path 150;
                     ELog (mkRow (question up) (now w) 0 returncode stdout stderr)])).
Proof.
  cbv zeta. rewrite generate_and_run_once. cbv zeta.
  destruct (open_write_fault w _ _).
  - left. apply new_events_app. reflexivity.
  - right.
    match goal with
    | |- context [subprocess_run w ?n ?p 150] =>
        destruct (harness_result (subprocess_run w n p 150))
          as [[returncode stdout] stderr] eqn:Hres
    end.
    destruct (log_fault w 0); cbn [snd]; (split;
      [cbn; rewrite String.eqb_refl; reflexivity|]);
      eexists _, returncode, stdout, stderr; (split; [exact Hres|]);
      [left | right]; apply new_events_app; cbn; now rewrite <- !app_assoc.
Qed.

(** X11.  The script the handler writes is the file it leaves under
    [analysis_script.py] in its temporary directory: after a run, that
    path holds the text written, also when an upload was saved under the
    same name before. *)
Theorem X11_script_file (w : World) (req : Request) (st : State)
    (file_path content : string) :
  In (EWrite file_path content) (trace_of w req st) ->
  exists temp_dir,
    mkdtemp w = Ok temp_dir
    /\ file_path = os_path_join temp_dir "analysis_script.py"
    /\ lookup_file (files (snd (analyze_data w req st))) file_path
       = Some (list_byte_of_string content).
Proof.
  intros Hin.
  destruct (trace_of_event w req st _ Hin)
    as [temp_dir [Htmp [H|[[key [file [_ [_ H]]]]|[up [st1 [_ [Hfin Hin']]]]]]]];
    try discriminate.
  exists temp_dir. split; [exact Htmp|]. rewrite Hfin.
  destruct (once_tail w temp_dir up st1) as [Ht|[Hfile [n [rc [out [err [_ [Ht|Ht]]]]]]]];
    rewrite Ht in Hin'; cbn in Hin';
    repeat (destruct Hin' as [Hin'|Hin']; try discriminate; try contradiction);
    injection Hin' as <- <-; auto.
Qed.

(** X12.  The script the handler writes holds no code fence: no run of
    three back quotes is left in it, whatever the language model
    answered. *)
Theorem X12_script_without_fences (w : World) (req : Request) (st : State)
    (file_path content : string) :
  In (EWrite file_path content) (trace_of w req st) ->
  contains content "```" = false.
Proof.
  intros Hin.
  destruct (trace_of_event w req st _ Hin)
    as [temp_dir [Htmp [H|[[key [file [_ [_ H]]]]|[up [st1 [_ [Hfin Hin']]]]]]]];
    try discriminate.
  destruct (once_tail w temp_dir up st1) as [Ht|[Hfile [n [rc [out [err [_ [Ht|Ht]]]]]]]];
    rewrite Ht in Hin'; cbn in Hin';
    repeat (destruct Hin' as [Hin'|Hin']; try discriminate; try contradiction);
    injection Hin' as _ <-; apply strip_fences_clean.
Qed.

(** X13.  Every row the handler appends to the log records attempt 0, the
    time of the request, the non-empty question, and the exit code,
    standard output and standard error the harness returned for an
    execution with a timeout of 150. *)
Theorem X13_log_row (w : World) (req : Request) (st : State) (row : LogRow) :
  In (ELog row) (trace_of w req st) ->
  row_attempt row = 0
  /\ row_ts row = now w
  /\ row_question row <> ""
  /\ exists n script_path,
       harness_result (subprocess_run w n script_path 150)
       = (row_returncode row, row_stdout row, row_stderr row).
Proof.
  intros Hin.
  destruct (trace_of_event w req st _ Hin)
    as [temp_dir [Htmp [H|[[key [file [_ [_ H]]]]|[up [st1 [Hq [Hfin Hin']]]]]]]];
    try discriminate.
  destruct (once_tail w temp_dir up st1) as [Ht|[Hfile [n [rc [out [err [Hres [Ht|Ht]]]]]]]];
    rewrite Ht in Hin'; cbn in Hin';
    repeat (destruct Hin' as [Hin'|Hin']; try discriminate; try contradiction).
  injection Hin' as <-. cbn. repeat split; auto. eauto.
Qed.



Lemma X11_script_file_witness :
  exists temp_dir,
    mkdtemp Sample.hello = Ok temp_dir
    /\ "/tmp/tmpk3x9/analysis_script.py" = os_path_join temp_dir "analysis_script.py"
    /\ lookup_file (files (snd (analyze_data Sample.hello clobber initial)))
                   "/tmp/tmpk3x9/analysis_script.py"
       = Some (list_byte_of_string "print('hello world')").
Proof.
  apply (X11_script_file Sample.hello clobber initial). find_event.
Defined.

Lemma X12_script_without_fences_witness :
  contains "
print(42)
" "```" = false.
Proof.
  apply (X12_script_without_fences fenced Sample.ask initial
           "/tmp/tmpk3x9/analysis_script.py"). find_event.
Defined.

Lemma X13_log_row_witness :
  row_attempt (mkRow "How many rows?" "2025-08-01 10:00:00" 0 1 "partial" "boom") = 0.
Proof.
  apply (X13_log_row Sample.failing Sample.ask initial). find_event.
Defined.



(** ** The description of the files in the prompt *)

Lemma length_append (a b : string) :
  String.length (a ++ b) = String.length a + String.length b.
Proof. induction a as [|c a IH]; cbn; [reflexivity | now rewrite IH]. Qed.

Lemma length_prefix (n : nat) :
  forall s, String.length (PyStr.prefix n s) = Nat.min n (String.length s).
Proof.
  unfold PyStr.prefix. induction n as [|n IH]; intros s.
  - destruct s; reflexivity.
  - destruct s as [|c s]; [reflexivity|]. cbn. now rewrite IH.
Qed.

Lemma describe_files_length (fc : dict string) :
  forall acc,
    String.length (describe_files fc acc) = String.length acc + description_cost fc.
Proof.
  unfold description_cost.
  induction fc as [|[name content] rest IH]; intros acc; cbn [describe_files].
  - cbn. lia.
  - change (list_sum (map entry_cost ((name, content) :: rest)))
      with (entry_cost (name, content) + list_sum (map entry_cost rest)).
    rewrite IH. unfold entry_cost. cbn [fst snd].
    destruct (PyStr.endswith_any name image_suffixes);
      rewrite !length_append, ?length_prefix; cbn [String.length plus]; lia.
Qed.

(** X15.  The part of the generation prompt that describes the files has
    a size fixed by the names and the lengths of the previews alone: an
    image adds its name and 33 characters, whatever its content, and any
    other file adds its name, 9 characters and at most the first 1000
    characters of its preview.  So the description never exceeds 1009
    characters per file beyond the names. *)
Theorem X15_description_size (file_contents : dict string) :
  String.length (describe_files file_contents "") = description_cost file_contents
  /\ description_cost file_contents
     <= list_sum (map (fun entry => String.length (fst entry) + 1009) file_contents).
Proof.
  split; [now rewrite describe_files_length|].
  unfold description_cost.
  induction file_contents as [|[name content] rest IH]; [cbn; lia|].
  change (list_sum (map entry_cost ((name, content) :: rest)))
    with (entry_cost (name, content) + list_sum (map entry_cost rest)).
  change (list_sum (map (fun entry => String.length (fst entry) + 1009)
                        ((name, content) :: rest)))
    with (String.length name + 1009
          + list_sum (map (fun entry => String.length (fst entry) + 1009) rest)).
  unfold entry_cost at 1. cbn [fst snd].
  destruct (PyStr.endswith_any name image_suffixes); lia.
Qed.

(** ** The base64 text of an image *)

Lemma digit_is_base64 (n : N) : is_base64_char (Base64.digit n) = true.
Proof.
  unfold Base64.digit.
  assert (Hlt : (N.to_nat (N.land n 63) < 64)%nat).
  { change 63%N with (N.ones 6). rewrite N.land_ones.
    pose proof (N.mod_lt n (2 ^ 6)%N ltac:(discriminate)) as H.
    change (2 ^ 6)%N with 64%N in *. lia. }
  revert Hlt. generalize (N.to_nat (N.land n 63)) as k. intros k Hk.
  do 64 (destruct k as [|k]; [reflexivity|]). lia.
Qed.

Lemma b64encode_shape (n : nat) :
  forall bs, List.length bs <= n ->
    String.length (Base64.b64encode bs) = 4 * ((List.length bs + 2) / 3)
    /\ all_chars is_base64_char (Base64.b64encode bs) = true.
Proof.
  induction n as [|n IH]; intros bs Hlen.
  - destruct bs; [split; reflexivity | cbn in Hlen; lia].
  - destruct bs as [|a [|b [|c rest]]].
    + split; reflexivity.
    + split; [reflexivity|]. cbn [Base64.b64encode all_chars].
      now rewrite !digit_is_base64.
    + split; [reflexivity|]. cbn [Base64.b64encode all_chars].
      now rewrite !digit_is_base64.
    + cbn [List.length] in Hlen.
      destruct (IH rest ltac:(lia)) as [IHl IHc].
      cbn [Base64.b64encode]. cbv zeta. cbn [String.length all_chars List.length].
      rewrite IHl, IHc, !digit_is_base64. split; [|reflexivity].
      replace (S (S (S (List.length rest))) + 2) with (List.length rest + 2 + 1 * 3) by lia.
      rewrite Nat.div_add by discriminate. lia.
Qed.

(** X16.  The base64 text written into the preview of an image has four
    characters for every three bytes of the file, the last group rounded
    up, and holds only characters of the base64 alphabet and the padding
    character: no line break is ever inserted. *)
Theorem X16_base64_shape (bs : list byte) :
  String.length (Base64.b64encode bs) = 4 * ((List.length bs + 2) / 3)
  /\ all_chars is_base64_char (Base64.b64encode bs) = true.
Proof. apply (b64encode_shape (List.length bs)). reflexivity. Qed.

(** ** Empty previews *)

Lemma txt_not_image (file_path : string) :
  PyStr.endswith file_path ".txt" = true ->
  PyStr.endswith_any file_path image_suffixes = false.
Proof.
  unfold PyStr.endswith_any, image_suffixes, PyStr.endswith. cbn [existsb].
  change (PyStr.rev ".txt") with "txt."; change (PyStr.rev ".png") with "gnp.";
    change (PyStr.rev ".jpg") with "gpj."; change (PyStr.rev ".jpeg") with "gepj.".
  destruct (PyStr.rev file_path) as [|c r]; [discriminate|].
  rewrite !startswith_cons. intros H. apply andb_true_iff in H as [Hc _].
  apply Ascii.eqb_eq in Hc. subst c. reflexivity.
Qed.

(** X17.  [read_file_content] returns the empty string in one case only:
    the name ends neither in [.csv] nor in an image suffix, and the file
    exists and decodes to the empty text.  A table, an image and every
    failed read give a non-empty text. *)
Theorem X17_empty_preview (w : World) (fs : list (string * list byte))
    (file_path : string) (max_rows : nat) :
  read_file_content w fs file_path max_rows = ""
  <-> PyStr.endswith file_path ".csv" = false
      /\ PyStr.endswith_any file_path image_suffixes = false
      /\ read_text w fs file_path = Ok "".
Proof.
  unfold read_file_content, read_file_content_try.
  destruct (PyStr.endswith file_path ".csv").
  - split; [|intros [H _]; discriminate].
    destruct (read_bytes fs file_path) as [bs|e]; [|discriminate].
    destruct (pd_read_csv w bs max_rows) as [[columns rendered]|e]; discriminate.
  - destruct (PyStr.endswith file_path ".txt") eqn:Htxt.
    + rewrite (txt_not_image file_path Htxt).
      destruct (read_text w fs file_path) as [s|e]; split.
      * intros ->. auto.
      * intros [_ [_ [= ->]]]. reflexivity.
      * discriminate.
      * intros [_ [_ H]]. discriminate.
    + destruct (PyStr.endswith_any file_path image_suffixes).
      * split; [|intros [_ [H _]]; discriminate].
        destruct (read_bytes fs file_path); discriminate.
      * destruct (read_text w fs file_path) as [s|e]; split.
        -- intros ->. auto.
        -- intros [_ [_ [= ->]]]. reflexivity.
        -- discriminate.
        -- intros [_ [_ H]]. discriminate.
Qed.

(** ** The repair cycle under a bound of 2 *)




(** ** Work done before the question is checked, and the log *)

Lemma process_files_save_count (w : World) (temp_dir : string) (items : Request) :
  forall (loc : Uploaded) (st : State) (up : Uploaded),
    fst (process_files w temp_dir items loc st) = Next up ->
    exists d,
      events (snd (process_files w temp_dir items loc st)) = (events st ++ d)%list
      /\ count is_save d = List.length d
      /\ List.length d = List.length (filter named items).
Proof.
  induction items as [|[key file] rest IH]; intros loc st up Hup.
  - exists []. cbn. repeat split. now rewrite app_nil_r.
  - rewrite process_files_cons in *. cbn [filter]. unfold named at 1. cbn [snd].
    destruct (PyStr.truthy (filename file)); [|exact (IH loc st up Hup)].
    cbv zeta in *. destruct (save_fault w _) as [e|]; [discriminate|].
    destruct (IH _ _ up Hup) as [d [Hev [Hc Hl]]].
    exists (ESave (os_path_join temp_dir (secure_filename w (filename file))) :: d).
    split; [|split].
    + rewrite Hev. cbn. now rewrite <- app_assoc.
    + unfold count in *. cbn. now rewrite Hc.
    + cbn. now rewrite Hl.
Qed.

(** X19.  The uploads are saved before the question is looked for: when
    the handler answers with the input error, it has already saved every
    named upload of the request in its temporary directory. *)
Theorem X19_input_error_after_saves (w : World) (req : Request) (st : State) :
  response_of w req st = Some input_error ->
  count is_save (trace_of w req st) = List.length (filter named req).
Proof.
  unfold response_of, trace_of, analyze_data, analyze_data_with, max_attempts.
  rewrite analyze_data_try_eq.
  destruct (mkdtemp w) as [temp_dir|e]; [|discriminate].
  cbv zeta.
  set (st0 := mkState (temp_dir :: dirs st) (files st) (events st ++ [EMkdtemp temp_dir])).
  pose proof (process_files_save_count w temp_dir req (mkUploaded [] [] "") st0) as Hcount.
  destruct (process_files_trace w temp_dir req (mkUploaded [] [] "") st0)
    as [_ [_ Hret]].
  destruct (process_files w temp_dir req (mkUploaded [] [] "") st0)
    as [[up|r|e] st1]; cbn [fst snd] in *.
  2:{ now elim (Hret r). }
  2:{ intros H. discriminate H. }
  - destruct (Hcount up eq_refl) as [d [Hev [Hc Hl]]].
    destruct (PyStr.truthy (question up)).
    + rewrite generate_and_run_once. cbv zeta.
      destruct (open_write_fault w _ _); [intros H; discriminate H|].
      destruct (harness_result _) as [[rc out] err].
      destruct (log_fault w 0); [intros H; discriminate H|]. cbn [fst].
      destruct (succeeded rc out); [|intros H; discriminate H].
      unfold success_response. destruct (json_loads w _); intros H; discriminate H.
    + intros _. cbn [snd].
      rewrite (new_events_app st st1 (EMkdtemp temp_dir :: d)).
      * change (EMkdtemp temp_dir :: d) with ([EMkdtemp temp_dir] ++ d)%list.
        rewrite count_app, Hc, Hl. reflexivity.
      * rewrite Hev. subst st0. cbn. now rewrite <- app_assoc.
Qed.

Lemma X19_input_error_after_saves_witness :
  count is_save (trace_of Sample.hello Sample.data_only initial)
  = List.length (filter named Sample.data_only).
Proof.
  apply (X19_input_error_after_saves Sample.hello Sample.data_only initial).
  reflexivity.
Defined.

Lemma save_of_counts (w : World) (temp_dir : string) (req : Request) (d : list event) :
  (forall ev, In ev d -> save_of w temp_dir req ev) ->
  count_exec d = 0 /\ log_attempts d = [].
Proof.
  induction d as [|ev d IH]; intros H; [split; reflexivity|].
  destruct (H ev (or_introl eq_refl)) as [key [file [_ [_ ->]]]].
  destruct IH as [He Hl]; [intros ev' Hin; apply H; now right|].
  split; [exact He | exact Hl].
Qed.

(** X20.  Every execution is logged unless the append to the log raises:
    when appending a row for attempt 0 does not raise, the trace of a run
    holds as many log rows as executions. *)
Theorem X20_executions_are_logged (w : World) (req : Request) (st : State) :
  log_fault w 0 = None ->
  List.length (log_attempts (trace_of w req st)) = count_exec (trace_of w req st).
Proof.
  intros Hlog.
  destruct (analyze_data_once w req st)
    as [[e [_ [Ht _]]]|[temp_dir [d0 [Htmp [Hd0 [Ht|[up [st1 [Hq [Ht Hfin]]]]]]]]]];
    rewrite Ht.
  - reflexivity.
  - destruct (save_of_counts w temp_dir req d0 Hd0) as [He Hl].
    change (EMkdtemp temp_dir :: d0) with ([EMkdtemp temp_dir] ++ d0)%list.
    rewrite log_attempts_app, count_exec_app, He, Hl. reflexivity.
  - destruct (save_of_counts w temp_dir req d0 Hd0) as [He Hl].
    rewrite app_comm_cons.
    change (EMkdtemp temp_dir :: d0) with ([EMkdtemp temp_dir] ++ d0)%list.
    rewrite !log_attempts_app, !count_exec_app, He, Hl.
    rewrite generate_and_run_once. cbv zeta.
    destruct (open_write_fault w _ _).
    + cbn [snd]. erewrite new_events_app; [|reflexivity]. reflexivity.
    + destruct (harness_result _) as [[rc out] err]. rewrite Hlog. cbn [snd].
      erewrite new_events_app; [|cbn; rewrite <- !app_assoc; reflexivity].
      reflexivity.
Qed.

Lemma X20_executions_are_logged_witness :
  List.length (log_attempts (trace_of Sample.failing Sample.ask initial))
  = count_exec (trace_of Sample.failing Sample.ask initial).
Proof.
  apply (X20_executions_are_logged Sample.failing Sample.ask initial). reflexivity.
Defined.
